(** * Free-plan usage limits (limits-manager.js)

    A shallow embedding of [src/limits-manager.js] together with the
    parts of its two platforms that the file calls: the ECMAScript [Date]
    arithmetic and the Firestore query interface.  The asynchronous
    functions of the source are embedded in a small state-and-error monad
    whose state is the trace of collaborator calls. *)

From Stdlib Require Import ZArith Lia Bool List.
From stdpp Require Import gmap strings list fin_maps pretty.

Local Open Scope Z_scope.

(** ** ECMAScript time values

    A time value is a number of milliseconds since the epoch, here a [Z].
    The definitions follow the abstract operations of the ECMAScript
    specification ("Date objects": Day, DayFromYear, YearFromTime,
    MonthFromTime, DateFromTime, MakeDay, MakeDate, LocalTZA, LocalTime,
    UTC).  The local time zone is the list of the instants at which its
    offset from Greenwich changes, so that summer time is part of the
    model.  TimeClip, which matters only some 270000 years from the
    epoch, is left out. *)
Module JSDate.

Definition msPerDay : Z := 86400000.

Definition Day (t : Z) : Z := t / msPerDay.
Definition TimeWithinDay (t : Z) : Z := t mod msPerDay.

Definition DaysInYear (y : Z) : Z :=
  if negb (y mod 4 =? 0) then 365
  else if negb (y mod 100 =? 0) then 366
  else if negb (y mod 400 =? 0) then 365
  else 366.

Definition DayFromYear (y : Z) : Z :=
  365 * (y - 1970) + (y - 1969) / 4 - (y - 1901) / 100 + (y - 1601) / 400.

Definition TimeFromYear (y : Z) : Z := msPerDay * DayFromYear y.

(** The largest year whose first day is not after day [d]: an estimate
    from the mean length of a year, then one step either way. *)
Definition YearFromDay (d : Z) : Z :=
  let y0 := 1970 + (400 * d) / 146097 in
  if DayFromYear (y0 + 1) <=? d then y0 + 1
  else if DayFromYear y0 <=? d then y0
  else y0 - 1.

Definition YearFromTime (t : Z) : Z := YearFromDay (Day t).

Definition InLeapYear (t : Z) : Z :=
  if DaysInYear (YearFromTime t) =? 366 then 1 else 0.

Definition DayWithinYear (t : Z) : Z :=
  Day t - DayFromYear (YearFromTime t).

(** Number of days of the year before month [m] (0 = January). *)
Definition DayFromMonth (m leap : Z) : Z :=
  if m =? 0 then 0
  else if m =? 1 then 31
  else if m =? 2 then 59 + leap
  else if m =? 3 then 90 + leap
  else if m =? 4 then 120 + leap
  else if m =? 5 then 151 + leap
  else if m =? 6 then 181 + leap
  else if m =? 7 then 212 + leap
  else if m =? 8 then 243 + leap
  else if m =? 9 then 273 + leap
  else if m =? 10 then 304 + leap
  else 334 + leap.

(** The month that contains day [d] of a year. *)
Definition MonthFromDay (d leap : Z) : Z :=
  if d <? 31 then 0
  else if d <? 59 + leap then 1
  else if d <? 90 + leap then 2
  else if d <? 120 + leap then 3
  else if d <? 151 + leap then 4
  else if d <? 181 + leap then 5
  else if d <? 212 + leap then 6
  else if d <? 243 + leap then 7
  else if d <? 273 + leap then 8
  else if d <? 304 + leap then 9
  else if d <? 334 + leap then 10
  else 11.

Definition MonthFromTime (t : Z) : Z :=
  MonthFromDay (DayWithinYear t) (InLeapYear t).

Definition DateFromTime (t : Z) : Z :=
  DayWithinYear t - DayFromMonth (MonthFromTime t) (InLeapYear t) + 1.

Definition MakeTime (hour min sec ms : Z) : Z :=
  hour * 3600000 + min * 60000 + sec * 1000 + ms.

Definition MakeDay (year month date : Z) : Z :=
  let ym := year + month / 12 in
  let mn := month mod 12 in
  let leap := if DaysInYear ym =? 366 then 1 else 0 in
  DayFromYear ym + DayFromMonth mn leap + date - 1.

Definition MakeDate (day time : Z) : Z := day * msPerDay + time.

(** A time zone: the offset, in milliseconds, that local time has from
    Greenwich before the first change, and the changes in the order of
    time, each the instant of the change and the offset from then on. *)
Record TimeZone := mkTimeZone {
  standard : Z;
  transitions : list (Z * Z)
}.

(** A zone whose offset never changes. *)
Definition fixed (offset : Z) : TimeZone := mkTimeZone offset [].

(** The offset in force at the instant [t]. *)
Fixpoint offset_at (o : Z) (trs : list (Z * Z)) (t : Z) : Z :=
  match trs with
  | [] => o
  | (T, o') :: rest => if t <? T then o else offset_at o' rest t
  end.

(** The offset by which the local time value [tl] is read.  A local
    time that the clock shows twice, because it was set back, and a local
    time that the clock never shows, because it was set forward over it,
    are both read with the offset from before the change. *)
Fixpoint offset_for (o : Z) (trs : list (Z * Z)) (tl : Z) : Z :=
  match trs with
  | [] => o
  | (T, o') :: rest =>
      if tl <? T + Z.max o o' then o else offset_for o' rest tl
  end.

Definition LocalTZA (z : TimeZone) (t : Z) (isUTC : bool) : Z :=
  if isUTC then offset_at (standard z) (transitions z) t
  else offset_for (standard z) (transitions z) t.

Definition LocalTime (z : TimeZone) (t : Z) : Z := t + LocalTZA z t true.
Definition UTC (z : TimeZone) (t : Z) : Z := t - LocalTZA z t false.

(** The changes of a zone are in order when each comes no earlier than
    the one before and the stretch of local time it touches, from the
    smaller to the larger of the two offsets, begins no earlier than the
    stretch of the one before ends. *)
Fixpoint ordered_after (Tprev lo o : Z) (trs : list (Z * Z)) : bool :=
  match trs with
  | [] => true
  | (T, o') :: rest =>
      (Tprev <=? T) && (lo <=? T + Z.min o o')
      && ordered_after T (T + Z.max o o') o' rest
  end.

Definition ordered (z : TimeZone) : bool :=
  match transitions z with
  | [] => true
  | (T, o') :: rest =>
      ordered_after T (T + Z.max (standard z) o') o' rest
  end.

(** The local time value [tl] lies strictly inside a stretch of local
    time that the clock never shows because it is set forward over it.
    The first local time of such a stretch is not inside it. *)
Fixpoint inside_gap (o : Z) (trs : list (Z * Z)) (tl : Z) : bool :=
  match trs with
  | [] => false
  | (T, o') :: rest =>
      ((T + o <? tl) && (tl <? T + o')) || inside_gap o' rest tl
  end.

Definition skipped_inside (z : TimeZone) (tl : Z) : bool :=
  inside_gap (standard z) (transitions z) tl.

(** Two-digit years given to the [Date] constructor denote 19xx. *)
Definition MakeFullYear (y : Z) : Z :=
  if (0 <=? y) && (y <=? 99) then 1900 + y else y.

(** [new Date(year, month, date)]: local midnight of that day. *)
Definition Date_ymd (z : TimeZone) (year month date : Z) : Z :=
  UTC z (MakeDate (MakeDay (MakeFullYear year) month date)
                  (MakeTime 0 0 0 0)).

Definition getFullYear (z : TimeZone) (t : Z) : Z :=
  YearFromTime (LocalTime z t).
Definition getMonth (z : TimeZone) (t : Z) : Z :=
  MonthFromTime (LocalTime z t).
Definition getDate (z : TimeZone) (t : Z) : Z :=
  DateFromTime (LocalTime z t).

End JSDate.

(** ** The Firestore query interface

    The functions [collection], [where], [query], [getDocs] and
    [Timestamp.fromDate] that the source imports from the Firestore SDK.
    A database is its collections; a document is a finite map from field
    names to values. *)
Module Firestore.

Record Timestamp := mkTimestamp { seconds : Z; nanoseconds : Z }.

Definition Timestamp_fromMillis (milliseconds : Z) : Timestamp :=
  let seconds := milliseconds / 1000 in
  let nanos := (milliseconds - seconds * 1000) * 1000000 in
  mkTimestamp seconds nanos.

(** [Timestamp.fromDate(date)] is [Timestamp.fromMillis(date.getTime())]. *)
Definition Timestamp_fromDate (date : Z) : Timestamp :=
  Timestamp_fromMillis date.

Definition Timestamp_geb (a b : Timestamp) : bool :=
  if seconds a =? seconds b then nanoseconds a >=? nanoseconds b
  else seconds a >=? seconds b.

Inductive Value :=
| VString (s : string)
| VNumber (n : Z)
| VTimestamp (t : Timestamp).

Definition Doc : Type := gmap string Value.

Record Firestore := mkFirestore { collections : gmap string (list Doc) }.

Record CollectionRef := mkCollectionRef { ref_db : Firestore; ref_path : string }.

Inductive Op := OpEq | OpGe.

Record Filter := mkFilter { f_field : string; f_op : Op; f_value : Value }.

Record Query := mkQuery { q_ref : CollectionRef; q_filters : list Filter }.

Definition collection (db : Firestore) (path : string) : CollectionRef :=
  mkCollectionRef db path.

Definition where_ (field : string) (op : Op) (value : Value) : Filter :=
  mkFilter field op value.

Definition query (ref : CollectionRef) (constraints : list Filter) : Query :=
  mkQuery ref constraints.

(** A filter compares values of one type only; a document without the
    field, or with a value of another type, does not match. *)
Definition Value_eqb (a b : Value) : bool :=
  match a, b with
  | VString x, VString y => String.eqb x y
  | VNumber x, VNumber y => x =? y
  | VTimestamp x, VTimestamp y =>
      (seconds x =? seconds y) && (nanoseconds x =? nanoseconds y)
  | _, _ => false
  end.

Definition Value_geb (a b : Value) : bool :=
  match a, b with
  | VString x, VString y => String.leb y x
  | VNumber x, VNumber y => x >=? y
  | VTimestamp x, VTimestamp y => Timestamp_geb x y
  | _, _ => false
  end.

Definition matches (f : Filter) (d : Doc) : bool :=
  match d !! f_field f with
  | Some v =>
      match f_op f with
      | OpEq => Value_eqb v (f_value f)
      | OpGe => Value_geb v (f_value f)
      end
  | None => false
  end.

Definition docs_of (r : CollectionRef) : list Doc :=
  default [] (collections (ref_db r) !! ref_path r).

(** The documents a query selects: those of the collection that match
    every filter. *)
Definition run_query (q : Query) : list Doc :=
  List.filter (fun d => forallb (fun f => matches f d) (q_filters q))
              (docs_of (q_ref q)).

Record FirestoreError := mkError { code : string; message : string }.

(** [snapshot.size] *)
Definition size (snapshot : list Doc) : Z := Z.of_nat (length snapshot).

End Firestore.

(** ** Asynchronous computations

    An [async] function is a computation that reads the world (the wall
    clock, the time zone, and whether the store answers), extends the
    trace of collaborator calls, and either returns or throws.  The source
    has no [try], so the only operation on an error is to pass it on. *)
Module Async.
Import JSDate Firestore.

Inductive Event :=
| EvPlan (userId : string)
| EvNow (t : Z)
| EvGetDocs (q : Query).

(** The world outside the program: [clock n] is the reading of the
    [n]-th [new Date()], [tza] the local time zone of the platform,
    and [fault n q] the error, if any, with which the store answers the
    [n]-th [getDocs] call when it carries query [q]. *)
Record World := mkWorld {
  clock : nat -> Z;
  tza : TimeZone;
  fault : nat -> Query -> option FirestoreError
}.

(** Traces list the latest event first. *)
Definition Trace : Type := list Event.

Fixpoint reads (tr : Trace) : nat :=
  match tr with
  | [] => O
  | EvNow _ :: tr' => S (reads tr')
  | _ :: tr' => reads tr'
  end.

Fixpoint queries (tr : Trace) : nat :=
  match tr with
  | [] => O
  | EvGetDocs _ :: tr' => S (queries tr')
  | _ :: tr' => queries tr'
  end.

Fixpoint lookups (tr : Trace) : nat :=
  match tr with
  | [] => O
  | EvPlan _ :: tr' => S (lookups tr')
  | _ :: tr' => lookups tr'
  end.

Definition M (A : Type) : Type :=
  World -> Trace -> (FirestoreError + A) * Trace.

Definition ret {A} (a : A) : M A := fun _ tr => (inr a, tr).

Definition bind {A B} (m : M A) (k : A -> M B) : M B :=
  fun w tr =>
    match m w tr with
    | (inr a, tr') => k a w tr'
    | (inl e, tr') => (inl e, tr')
    end.

(** [new Date()] *)
Definition newDate : M Z :=
  fun w tr => let t := clock w (reads tr) in (inr t, EvNow t :: tr).

(** [await getDocs(q)] *)
Definition getDocs (q : Query) : M (list Doc) :=
  fun w tr =>
    match fault w (queries tr) q with
    | Some e => (inl e, EvGetDocs q :: tr)
    | None => (inr (run_query q), EvGetDocs q :: tr)
    end.

(** The local time zone, which the [Date] methods read. *)
Definition localTZA : M TimeZone := fun w tr => (inr (tza w), tr).

(** Ghost event that records a call of the plan resolver. *)
Definition notePlanLookup (userId : string) : M unit :=
  fun _ tr => (inr tt, EvPlan userId :: tr).

End Async.

Notation "x <- m ;; k" := (Async.bind m (fun x => k))
  (at level 100, m at next level, right associativity).

(** ** limits-manager.js

    The functions of the source file, in its order.  Each counter starts
    with a dynamic [import] of the Firestore SDK that binds [collection],
    [query], [where], [getDocs] and [Timestamp]; the names are those of
    the module above. *)
Module Limits.
Import JSDate Firestore Async.

Record FreeLimits := mkFreeLimits {
  studyMaterials : Z;
  quizzesPerMonth : Z;
  aiWritingsPerDay : Z;
  questionsPerMaterial : Z
}.

Definition FREE_LIMITS : FreeLimits :=
  {| studyMaterials := 3;
     quizzesPerMonth := 5;
     aiWritingsPerDay := 1;
     questionsPerMaterial := 5 |}.

Record PlanNames := mkPlanNames { free : string; starter : string; pro : string }.

Definition PLAN_NAMES : PlanNames :=
  {| free := "Free"; starter := "Starter"; pro := "Pro" |}.

(** The objects the functions return.  A property that the object
    literal does not set is [None]. *)
Record Decision := mkDecision {
  allowed : bool;
  reason : option string;
  current : option Z;
  limit : option Z;
  upgradeMessage : option string;
  remaining : option Z
}.

(** [{ allowed: true }] *)
Definition allow_only : Decision :=
  {| allowed := true; reason := None; current := None; limit := None;
     upgradeMessage := None; remaining := None |}.

(** A number inside a template literal. *)
Definition show (n : Z) : string := pretty n.

Definition getUserPlan (userId : string) : M string :=
  _ <- notePlanLookup userId ;;
  ret "free".

Definition checkMaterialLimit (db : Firestore) (userId : string) : M Decision :=
  let materialsRef := collection db "study_materials" in
  let q := query materialsRef [where_ "userId" OpEq (VString userId)] in
  snapshot <- getDocs q ;;
  let count := size snapshot in
  let limit := studyMaterials FREE_LIMITS in
  if count >=? limit then
    ret {| allowed := false;
           reason := Some ("You've reached the free plan limit of " +:+ show limit
                           +:+ " study materials.");
           current := Some count;
           limit := Some limit;
           upgradeMessage := Some "Upgrade to Starter ($10/month) for 20 materials or Pro ($20/month) for unlimited!";
           remaining := None |}
  else
    ret {| allowed := true;
           reason := None;
           current := Some count;
           limit := Some limit;
           upgradeMessage := None;
           remaining := Some (limit - count) |}.

Definition checkQuizLimit (db : Firestore) (userId : string) : M Decision :=
  now <- newDate ;;
  z <- localTZA ;;
  let monthStart := Date_ymd z (getFullYear z now) (getMonth z now) 1 in
  let monthStartTimestamp := Timestamp_fromDate monthStart in
  let resultsRef := collection db "quiz_results" in
  let q := query resultsRef
                 [where_ "userId" OpEq (VString userId);
                  where_ "completedAt" OpGe (VTimestamp monthStartTimestamp)] in
  snapshot <- getDocs q ;;
  let count := size snapshot in
  let limit := quizzesPerMonth FREE_LIMITS in
  if count >=? limit then
    ret {| allowed := false;
           reason := Some ("You've taken " +:+ show limit
                           +:+ " quizzes this month (free plan limit).");
           current := Some count;
           limit := Some limit;
           upgradeMessage := Some "Upgrade to Starter or Pro for unlimited quizzes!";
           remaining := None |}
  else
    ret {| allowed := true;
           reason := None;
           current := Some count;
           limit := Some limit;
           upgradeMessage := None;
           remaining := Some (limit - count) |}.

Definition checkWritingLimit (db : Firestore) (userId : string) : M Decision :=
  now <- newDate ;;
  z <- localTZA ;;
  let todayStart :=
    Date_ymd z (getFullYear z now) (getMonth z now) (getDate z now) in
  let todayStartTimestamp := Timestamp_fromDate todayStart in
  let writingsRef := collection db "ai_writings" in
  let q := query writingsRef
                 [where_ "userId" OpEq (VString userId);
                  where_ "createdAt" OpGe (VTimestamp todayStartTimestamp)] in
  snapshot <- getDocs q ;;
  let count := size snapshot in
  let limit := aiWritingsPerDay FREE_LIMITS in
  if count >=? limit then
    ret {| allowed := false;
           reason := Some ("You've used your " +:+ show limit
                           +:+ " AI writing for today (free plan limit).");
           current := Some count;
           limit := Some limit;
           upgradeMessage := Some "Upgrade to Starter for 10 writings/day or Pro for unlimited!";
           remaining := None |}
  else
    ret {| allowed := true;
           reason := None;
           current := Some count;
           limit := Some limit;
           upgradeMessage := None;
           remaining := Some (limit - count) |}.

(** The body of [canUserPerformAction] below its first line, as a
    function of the plan that the first line obtained. *)
Definition performActionOnPlan (userPlan : string)
    (db : Firestore) (userId action : string) : M Decision :=
  if negb (String.eqb userPlan "free") then ret allow_only
  else if String.eqb action "upload_material" then checkMaterialLimit db userId
  else if String.eqb action "take_quiz" then checkQuizLimit db userId
  else if String.eqb action "ai_writing" then checkWritingLimit db userId
  else if String.eqb action "generate_questions" then ret allow_only
  else ret allow_only.

(** [canUserPerformAction] with the plan resolver it awaits as an
    argument. *)
Definition canUserPerformActionWith (resolvePlan : string -> M string)
    (db : Firestore) (userId action : string) : M Decision :=
  userPlan <- resolvePlan userId ;;
  performActionOnPlan userPlan db userId action.

Definition canUserPerformAction (db : Firestore) (userId action : string)
  : M Decision :=
  canUserPerformActionWith getUserPlan db userId action.

Module Usage.
Record t := mk { used : option Z; limit : option Z; remaining : option Z }.
End Usage.

Record UsageStats := mkUsageStats {
  materials : Usage.t;
  quizzes : Usage.t;
  writings : Usage.t
}.

Definition getUserUsageStats (db : Firestore) (userId : string) : M UsageStats :=
  materialCheck <- checkMaterialLimit db userId ;;
  quizCheck <- checkQuizLimit db userId ;;
  writingCheck <- checkWritingLimit db userId ;;
  ret {| materials :=
           {| Usage.used := current materialCheck;
              Usage.limit := limit materialCheck;
              Usage.remaining :=
                if allowed materialCheck then remaining materialCheck else Some 0 |};
         quizzes :=
           {| Usage.used := current quizCheck;
              Usage.limit := limit quizCheck;
              Usage.remaining :=
                if allowed quizCheck then remaining quizCheck else Some 0 |};
         writings :=
           {| Usage.used := current writingCheck;
              Usage.limit := limit writingCheck;
              Usage.remaining :=
                if allowed writingCheck then remaining writingCheck else Some 0 |} |}.

End Limits.

(** ** Vocabulary of the statements

    The three gated actions, and the count of a user's records in the
    window of an action, written from the description of the counters
    rather than from the queries the code builds. *)
Module Quota.
Import JSDate Firestore Async Limits.

Inductive Gated := UploadMaterial | TakeQuiz | AiWriting.

Definition action_name (g : Gated) : string :=
  match g with
  | UploadMaterial => "upload_material"
  | TakeQuiz => "take_quiz"
  | AiWriting => "ai_writing"
  end.

Definition counter (g : Gated) : Firestore -> string -> M Decision :=
  match g with
  | UploadMaterial => checkMaterialLimit
  | TakeQuiz => checkQuizLimit
  | AiWriting => checkWritingLimit
  end.

Definition static_limit (g : Gated) : Z :=
  match g with
  | UploadMaterial => 3
  | TakeQuiz => 5
  | AiWriting => 1
  end.

Definition collection_of (g : Gated) : string :=
  match g with
  | UploadMaterial => "study_materials"
  | TakeQuiz => "quiz_results"
  | AiWriting => "ai_writings"
  end.

(** The instants the two time windows start at, for a clock reading
    [now] in the zone [z]. *)
Definition monthStartOf (z : TimeZone) (now : Z) : Z :=
  Date_ymd z (getFullYear z now) (getMonth z now) 1.

Definition todayStartOf (z : TimeZone) (now : Z) : Z :=
  Date_ymd z (getFullYear z now) (getMonth z now) (getDate z now).

(** The instant the window of an action starts at, if it has one. *)
Definition window_start (a : string) (z : TimeZone) (now : Z) : option Z :=
  if String.eqb a "take_quiz" then Some (monthStartOf z now)
  else if String.eqb a "ai_writing" then Some (todayStartOf z now)
  else None.

(** The record belongs to user [u]. *)
Definition owned (u : string) (d : Doc) : bool :=
  match d !! "userId" with
  | Some (VString s) => String.eqb s u
  | _ => false
  end.

(** The record carries, under [field], a timestamp not before [start]. *)
Definition stamped_since (field : string) (start : Timestamp) (d : Doc) : bool :=
  match d !! field with
  | Some (VTimestamp ts) => Timestamp_geb ts start
  | _ => false
  end.

Definition in_window (g : Gated) (u : string) (z : TimeZone) (now : Z)
    (d : Doc) : bool :=
  match g with
  | UploadMaterial => owned u d
  | TakeQuiz =>
      owned u d
      && stamped_since "completedAt" (Timestamp_fromDate (monthStartOf z now)) d
  | AiWriting =>
      owned u d
      && stamped_since "createdAt" (Timestamp_fromDate (todayStartOf z now)) d
  end.

Definition window_count (g : Gated) (db : Firestore) (u : string)
    (z : TimeZone) (now : Z) : Z :=
  Z.of_nat (length (List.filter (in_window g u z now)
                                (docs_of (collection db (collection_of g))))).

(** The query a counter sends. *)
Definition query_of (g : Gated) (db : Firestore) (u : string)
    (z : TimeZone) (now : Z) : Query :=
  match g with
  | UploadMaterial =>
      query (collection db "study_materials")
            [where_ "userId" OpEq (VString u)]
  | TakeQuiz =>
      query (collection db "quiz_results")
            [where_ "userId" OpEq (VString u);
             where_ "completedAt" OpGe
                    (VTimestamp (Timestamp_fromDate (monthStartOf z now)))]
  | AiWriting =>
      query (collection db "ai_writings")
            [where_ "userId" OpEq (VString u);
             where_ "createdAt" OpGe
                    (VTimestamp (Timestamp_fromDate (todayStartOf z now)))]
  end.

(** The sentence a denial carries. *)
Definition denial_reason (g : Gated) : string :=
  match g with
  | UploadMaterial => "You've reached the free plan limit of 3 study materials."
  | TakeQuiz => "You've taken 5 quizzes this month (free plan limit)."
  | AiWriting => "You've used your 1 AI writing for today (free plan limit)."
  end.

Definition upgrade_text (g : Gated) : string :=
  match g with
  | UploadMaterial =>
      "Upgrade to Starter ($10/month) for 20 materials or Pro ($20/month) for unlimited!"
  | TakeQuiz => "Upgrade to Starter or Pro for unlimited quizzes!"
  | AiWriting => "Upgrade to Starter for 10 writings/day or Pro for unlimited!"
  end.

(** The Decision of a counter that found [count] records. *)
Definition decision_at (g : Gated) (count : Z) : Decision :=
  if count >=? static_limit g then
    {| allowed := false;
       reason := Some (denial_reason g);
       current := Some count;
       limit := Some (static_limit g);
       upgradeMessage := Some (upgrade_text g);
       remaining := None |}
  else
    {| allowed := true;
       reason := None;
       current := Some count;
       limit := Some (static_limit g);
       upgradeMessage := None;
       remaining := Some (static_limit g - count) |}.

(** The events a counter adds to the trace: a clock reading, for the
    two counters that have a time window, then the query. *)
Definition counter_events (g : Gated) (q : Query) (now : Z) : Trace :=
  match g with
  | UploadMaterial => [EvGetDocs q]
  | _ => [EvGetDocs q; EvNow now]
  end.

(** What the dashboard shows as remaining. *)
Definition shown_remaining (d : Decision) : option Z :=
  if allowed d then remaining d else Some 0.

Definition usage_of (d : Decision) : Usage.t :=
  {| Usage.used := current d;
     Usage.limit := limit d;
     Usage.remaining := shown_remaining d |}.

(** The local time values of midnight on the day of [now] and of
    midnight on the first day of the month of [now]. *)
Definition local_midnight (z : TimeZone) (now : Z) : Z :=
  MakeDate (Day (LocalTime z now)) 0.

Definition local_month_midnight (z : TimeZone) (now : Z) : Z :=
  MakeDate (Day (LocalTime z now) - (getDate z now - 1)) 0.

(** The clock of the zone shows the local time [tl] at the instant as
    which [tl] is read.  This fails only for a local time that the clock
    is set forward over. *)
Definition on_the_clock (z : TimeZone) (tl : Z) : Prop :=
  LocalTime z (UTC z tl) = tl.

(** At the instant [s] the local clock first shows the local time [tl]
    or a later one: it shows only earlier times before [s]. *)
Definition first_shows (z : TimeZone) (tl s : Z) : Prop :=
  tl <= LocalTime z s
  /\ (forall t, t < s -> LocalTime z t < tl).

(** [s] is the start of the local calendar month of [now]: the instant,
    not after [now], at which the local clock first shows midnight of
    the first day of that month, or a later time. *)
Definition local_month_start (z : TimeZone) (now s : Z) : Prop :=
  s <= now /\ first_shows z (local_month_midnight z now) s.

(** [s] is the start of the local calendar day of [now]: the instant,
    not after [now], at which the local clock first shows midnight of
    that day, or a later time. *)
Definition local_day_start (z : TimeZone) (now s : Z) : Prop :=
  s <= now /\ first_shows z (local_midnight z now) s.

End Quota.

(** ** Sample data

    A store with two users, and worlds around 3 November 2026 in central
    European time. *)
Module Sample.
Import JSDate Firestore Async Limits Quota.

(** Central European time in 2026: summer time from 29 March to 25
    October, both at 01:00 Greenwich time. *)
Definition zone : TimeZone :=
  mkTimeZone 3600000
    [(1774746000000, 7200000); (1792890000000, 3600000)].

(** Eastern time in 2026: summer time from 8 March to 1 November, both
    at 02:00 local time. *)
Definition new_york : TimeZone :=
  mkTimeZone (-18000000)
    [(1772953200000, -14400000); (1793512800000, -18000000)].

(** 2026-11-03 12:00:00.000 in New York, and the midnights with which
    that month and that day began there: the first in summer time, four
    hours behind Greenwich, the second in winter time, five hours
    behind. *)
Definition new_york_noon : Z := 1793725200000.
Definition new_york_november : Z := 1793505600000.
Definition new_york_today : Z := 1793682000000.

(** Cairo in 2026: summer time from 24 April, when the clock goes from
    midnight straight to 01:00, to 29 October, when it goes from midnight
    back to 23:00. *)
Definition cairo : TimeZone :=
  mkTimeZone 7200000
    [(1776981600000, 10800000); (1793307600000, 7200000)].

(** 2026-04-24 12:00:00.000 in Cairo, on the day whose midnight the
    clock skips, and the instant at which that day begins, when the
    clock shows 01:00. *)
Definition cairo_noon : Z := 1777021200000.
Definition cairo_day_start : Z := 1776981600000.

(** 2026-10-25 23:59:59.999 in central Europe, the last millisecond of
    the day on which the clock was set back, and the midnight with which
    that day began. *)
Definition long_day_end : Z := 1792969199999.
Definition long_day_start : Z := 1792879200000.

(** 2026-11-03 11:00:00.000 local time. *)
Definition morning : Z := 1793700000000.
(** 2026-11-03 23:59:59.999 local time, and the millisecond after it. *)
Definition day_end : Z := 1793746799999.
Definition next_day : Z := 1793746800000.
(** 2026-11-01 00:00:00.000 and 2026-11-03 00:00:00.000 local time. *)
Definition november : Z := 1793487600000.
Definition today : Z := 1793660400000.

Definition material (u : string) : Doc :=
  <["userId" := VString u]> ∅.

Definition record (u field : string) (ms : Z) : Doc :=
  <["userId" := VString u]>
    (<[field := VTimestamp (Timestamp_fromMillis ms)]> ∅).

Definition store : Firestore :=
  mkFirestore
    (<["study_materials" :=
         [material "ana"; material "ben"; material "ana"; material "ana";
          material "ben"]]>
     (<["quiz_results" :=
          [record "ana" "completedAt" (november - 1);
           record "ana" "completedAt" november;
           record "ana" "completedAt" (november + 1);
           record "ben" "completedAt" today;
           record "ana" "completedAt" today;
           record "ana" "completedAt" (today + 5);
           record "ana" "completedAt" (morning - 1);
           record "ana" "completedAt" 1792065600000]]>
      (<["ai_writings" :=
           [record "ben" "createdAt" (today - 1);
            record "ana" "createdAt" 1793692800000]]> ∅))).

Definition empty_store : Firestore := mkFirestore ∅.

(** A world whose clock stands still and whose store answers. *)
Definition still (now : Z) : World :=
  mkWorld (fun _ => now) zone (fun _ _ => None).

(** The same in New York. *)
Definition in_new_york (now : Z) : World :=
  mkWorld (fun _ => now) new_york (fun _ _ => None).

(** A world in which midnight passes between two clock readings. *)
Definition midnight : World :=
  mkWorld (fun n => match n with O => day_end | _ => next_day end)
          zone (fun _ _ => None).

Definition unavailable : FirestoreError :=
  mkError "unavailable" "The service is currently unavailable.".

(** A world whose store fails the call of index [k] and no other. *)
Definition failing (k : nat) : World :=
  mkWorld (fun _ => morning) zone
          (fun n _ => if Nat.eqb n k then Some unavailable else None).

End Sample.

(** ** Writes by the rest of the application

    The file only reads the store.  The statements about what a new
    record does to a Decision speak of the store after another part of
    the application has added a document to a collection. *)
Module Writes.
Import JSDate Firestore Async Limits Quota.

Definition add_record (path : string) (r : Doc) (db : Firestore) : Firestore :=
  mkFirestore (<[path := docs_of (collection db path) ++ [r]]> (collections db)).

(** The field that holds the time of a record, for the counters that
    have a time window. *)
Definition stamp_field (g : Gated) : option string :=
  match g with
  | UploadMaterial => None
  | TakeQuiz => Some "completedAt"
  | AiWriting => Some "createdAt"
  end.

(** Whether a record of the user stamped at [at_] milliseconds lies in
    the window of the action at the clock reading [now]. *)
Definition in_window_at (g : Gated) (z : TimeZone) (now at_ : Z) : bool :=
  match window_start (action_name g) z now with
  | Some start => at_ >=? start
  | None => true
  end.

(** The part of the window test that comes after the test of the owner. *)
Definition after_owner (g : Gated) (z : TimeZone) (now : Z) (d : Doc) : bool :=
  match g with
  | UploadMaterial => true
  | TakeQuiz =>
      stamped_since "completedAt" (Timestamp_fromDate (monthStartOf z now)) d
  | AiWriting =>
      stamped_since "createdAt" (Timestamp_fromDate (todayStartOf z now)) d
  end.

(** The entry of the dashboard that belongs to an action. *)
Definition usage_for (g : Gated) (s : UsageStats) : Usage.t :=
  match g with
  | UploadMaterial => materials s
  | TakeQuiz => quizzes s
  | AiWriting => writings s
  end.

End Writes.

(** * Facts about the calendar arithmetic *)
Module JSDateFacts.
Import JSDate.

Lemma DayFromYear_succ y : DayFromYear (y + 1) = DayFromYear y + DaysInYear y.
Proof.
  unfold DayFromYear, DaysInYear.
  repeat match goal with
         | |- context [?a =? ?b] => destruct (Z.eqb_spec a b); simpl
         end; Z.div_mod_to_equations; lia.
Qed.

Lemma DaysInYear_range y : 365 <= DaysInYear y <= 366.
Proof.
  unfold DaysInYear.
  repeat match goal with
         | |- context [?a =? ?b] => destruct (Z.eqb_spec a b); simpl
         end; lia.
Qed.

Lemma YearFromDay_spec d :
  DayFromYear (YearFromDay d) <= d < DayFromYear (YearFromDay d + 1).
Proof.
  unfold YearFromDay.
  set (y0 := 1970 + 400 * d / 146097).
  assert (H : DayFromYear (y0 - 1) <= d < DayFromYear (y0 + 2)).
  { unfold DayFromYear, y0. Z.div_mod_to_equations. lia. }
  destruct (Z.leb_spec (DayFromYear (y0 + 1)) d).
  - replace (y0 + 1 + 1) with (y0 + 2) by lia. lia.
  - destruct (Z.leb_spec (DayFromYear y0) d).
    + lia.
    + replace (y0 - 1 + 1) with y0 by lia. lia.
Qed.

Lemma DayFromYear_mono y1 y2 : y1 <= y2 -> DayFromYear y1 <= DayFromYear y2.
Proof. unfold DayFromYear. intros. Z.div_mod_to_equations. lia. Qed.

Lemma YearFromDay_unique y d :
  DayFromYear y <= d < DayFromYear (y + 1) -> YearFromDay d = y.
Proof.
  intros Hy. pose proof (YearFromDay_spec d) as Hs.
  destruct (Z.lt_trichotomy (YearFromDay d) y) as [Hlt | [Heq | Hgt]]; [| exact Heq |].
  - pose proof (DayFromYear_mono (YearFromDay d + 1) y). lia.
  - pose proof (DayFromYear_mono (y + 1) (YearFromDay d)). lia.
Qed.

Lemma Day_MakeDate d tm : 0 <= tm < msPerDay -> Day (MakeDate d tm) = d.
Proof.
  unfold Day, MakeDate, msPerDay. intros. Z.div_mod_to_equations. lia.
Qed.

Lemma TimeWithinDay_MakeDate d tm :
  0 <= tm < msPerDay -> TimeWithinDay (MakeDate d tm) = tm.
Proof.
  unfold TimeWithinDay, MakeDate, msPerDay. intros. Z.div_mod_to_equations. lia.
Qed.

Lemma MakeDate_Day t : MakeDate (Day t) (TimeWithinDay t) = t.
Proof.
  unfold MakeDate, Day, TimeWithinDay, msPerDay. Z.div_mod_to_equations. lia.
Qed.

Lemma DayWithinYear_range t :
  0 <= DayWithinYear t < 365 + InLeapYear t.
Proof.
  unfold DayWithinYear, InLeapYear, YearFromTime.
  pose proof (YearFromDay_spec (Day t)) as Hs.
  rewrite DayFromYear_succ in Hs.
  pose proof (DaysInYear_range (YearFromDay (Day t))).
  destruct (Z.eqb_spec (DaysInYear (YearFromDay (Day t))) 366); lia.
Qed.

Lemma InLeapYear_range t : 0 <= InLeapYear t <= 1.
Proof. unfold InLeapYear. destruct (_ =? _); lia. Qed.

Lemma MonthFromDay_bounds d leap :
  0 <= MonthFromDay d leap <= 11.
Proof.
  unfold MonthFromDay.
  repeat match goal with
         | |- context [?a <? ?b] => destruct (Z.ltb_spec a b)
         end; lia.
Qed.

Lemma leap_cases leap : 0 <= leap <= 1 -> leap = 0 \/ leap = 1.
Proof. lia. Qed.

Lemma month_cases m :
  0 <= m <= 11 ->
  m = 0 \/ m = 1 \/ m = 2 \/ m = 3 \/ m = 4 \/ m = 5 \/ m = 6
  \/ m = 7 \/ m = 8 \/ m = 9 \/ m = 10 \/ m = 11.
Proof. lia. Qed.

(** The first day of month [m] is found in month [m]. *)
Lemma MonthFromDay_first m leap :
  0 <= m <= 11 -> 0 <= leap <= 1 ->
  MonthFromDay (DayFromMonth m leap) leap = m.
Proof.
  intros Hm Hl.
  destruct (leap_cases leap Hl); subst leap;
    destruct (month_cases m Hm) as [->|[->|[->|[->|[->|[->|[->|[->|[->|[->|[->| ->]]]]]]]]]]];
    reflexivity.
Qed.

(** A day of the year is at most thirty days after the first day of
    its month. *)
Lemma DayFromMonth_MonthFromDay d leap :
  0 <= leap <= 1 -> 0 <= d < 365 + leap ->
  0 <= d - DayFromMonth (MonthFromDay d leap) leap <= 30.
Proof.
  intros Hl Hd. unfold MonthFromDay.
  repeat match goal with
         | |- context [?a <? ?b] => destruct (Z.ltb_spec a b)
         end;
    cbv [DayFromMonth Z.eqb Pos.eqb]; lia.
Qed.

Lemma MonthFromTime_range t : 0 <= MonthFromTime t <= 11.
Proof. apply MonthFromDay_bounds. Qed.

Lemma DateFromTime_range t : 1 <= DateFromTime t <= 31.
Proof.
  unfold DateFromTime, MonthFromTime.
  pose proof (DayFromMonth_MonthFromDay _ _ (InLeapYear_range t)
                (DayWithinYear_range t)).
  lia.
Qed.

(** Reading the day of a month back from [MakeDay]. *)
Lemma MakeDay_of_time t :
  MakeDay (YearFromTime t) (MonthFromTime t) (DateFromTime t) = Day t.
Proof.
  pose proof (MonthFromTime_range t) as Hm.
  unfold MakeDay.
  replace (MonthFromTime t / 12) with 0 by (Z.div_mod_to_equations; lia).
  replace (MonthFromTime t mod 12) with (MonthFromTime t)
    by (Z.div_mod_to_equations; lia).
  rewrite Z.add_0_r. fold (InLeapYear t).
  unfold DateFromTime, DayWithinYear. lia.
Qed.

Lemma MakeDay_first_of_month t :
  MakeDay (YearFromTime t) (MonthFromTime t) 1
  = Day t - (DateFromTime t - 1).
Proof. rewrite <- (MakeDay_of_time t). unfold MakeDay. lia. Qed.

Lemma DayFromMonth_nonneg m leap : 0 <= leap -> 0 <= DayFromMonth m leap.
Proof.
  intros Hl. unfold DayFromMonth.
  repeat match goal with
         | |- context [?a =? ?b] => destruct (a =? b)
         end; lia.
Qed.

Lemma MakeDay_in_year y m date :
  0 <= m <= 11 ->
  MakeDay y m date
  = DayFromYear y
    + DayFromMonth m (if DaysInYear y =? 366 then 1 else 0) + date - 1.
Proof.
  intros Hm. unfold MakeDay.
  replace (m / 12) with 0 by (Z.div_mod_to_equations; lia).
  replace (m mod 12) with m by (Z.div_mod_to_equations; lia).
  rewrite Z.add_0_r. reflexivity.
Qed.

(** The time value built for the first day of the month of [t] reads
    back as that year, that month and day one. *)
Lemma first_of_month_fields t tm :
  0 <= tm < msPerDay ->
  let t1 := MakeDate (MakeDay (YearFromTime t) (MonthFromTime t) 1) tm in
  YearFromTime t1 = YearFromTime t
  /\ MonthFromTime t1 = MonthFromTime t
  /\ DateFromTime t1 = 1.
Proof.
  intros Htm t1.
  pose proof (MonthFromTime_range t) as Hm.
  pose proof (InLeapYear_range t) as Hl.
  pose proof (DayWithinYear_range t) as Hd.
  pose proof (DayFromMonth_MonthFromDay _ _ Hl Hd) as Hin.
  fold (MonthFromTime t) in Hin.
  pose proof (DayFromMonth_nonneg (MonthFromTime t) (InLeapYear t) (proj1 Hl)) as H0.
  assert (Hday : Day t1 = DayFromYear (YearFromTime t)
                          + DayFromMonth (MonthFromTime t) (InLeapYear t)).
  { unfold t1. rewrite (Day_MakeDate _ _ Htm), (MakeDay_in_year _ _ _ Hm).
    fold (InLeapYear t). lia. }
  assert (Hy : YearFromTime t1 = YearFromTime t).
  { unfold YearFromTime at 1. apply YearFromDay_unique. rewrite Hday.
    pose proof (YearFromDay_spec (Day t)) as Hs. fold (YearFromTime t) in Hs.
    unfold DayWithinYear in Hd, Hin. lia. }
  assert (Hleap : InLeapYear t1 = InLeapYear t).
  { unfold InLeapYear. rewrite Hy. reflexivity. }
  assert (Hw : DayWithinYear t1 = DayFromMonth (MonthFromTime t) (InLeapYear t)).
  { unfold DayWithinYear. rewrite Hy, Hday. lia. }
  assert (Hmo : MonthFromTime t1 = MonthFromTime t).
  { unfold MonthFromTime at 1. rewrite Hw, Hleap.
    apply MonthFromDay_first; assumption. }
  split; [exact Hy | split; [exact Hmo |]].
  unfold DateFromTime. rewrite Hmo, Hleap, Hw. lia.
Qed.

(** Calendar fields of some instants, in Greenwich time: a leap day, the
    leap day of a year divisible by 400, the day after the missing leap
    day of 1900, the last millisecond before the epoch, and the ends of
    the range of four-digit years. *)
Example fields_2024_02_29 :
  (getFullYear (fixed 0) 1709251199999, getMonth (fixed 0) 1709251199999, getDate (fixed 0) 1709251199999)
  = (2024, 1, 29).
Proof. vm_compute. reflexivity. Qed.

Example fields_2000_02_29 :
  (getFullYear (fixed 0) 951782400000, getMonth (fixed 0) 951782400000, getDate (fixed 0) 951782400000)
  = (2000, 1, 29).
Proof. vm_compute. reflexivity. Qed.

Example fields_1900_03_01 :
  (getFullYear (fixed 0) (-2203891200000), getMonth (fixed 0) (-2203891200000),
   getDate (fixed 0) (-2203891200000))
  = (1900, 2, 1).
Proof. vm_compute. reflexivity. Qed.

Example fields_1969_12_31 :
  (getFullYear (fixed 0) (-1), getMonth (fixed 0) (-1), getDate (fixed 0) (-1)) = (1969, 11, 31).
Proof. vm_compute. reflexivity. Qed.

Example fields_0001_01_01 :
  (getFullYear (fixed 0) (-62135596800000), getMonth (fixed 0) (-62135596800000),
   getDate (fixed 0) (-62135596800000))
  = (1, 0, 1).
Proof. vm_compute. reflexivity. Qed.

Example fields_9999_12_31 :
  (getFullYear (fixed 0) 253402300799000, getMonth (fixed 0) 253402300799000,
   getDate (fixed 0) 253402300799000)
  = (9999, 11, 31).
Proof. vm_compute. reflexivity. Qed.

(** One hour east of Greenwich the new year starts an hour earlier. *)
Example fields_new_year_east :
  (getFullYear (fixed 3600000) 1798758000000, getMonth (fixed 3600000) 1798758000000,
   getDate (fixed 3600000) 1798758000000)
  = (2027, 0, 1)
  /\ getFullYear (fixed 0) 1798758000000 = 2026.
Proof. vm_compute. split; reflexivity. Qed.

(** The constructor gives back the instant of a local midnight. *)
Example Date_ymd_2026_11_01 : Date_ymd (fixed 3600000) 2026 10 1 = 1793487600000.
Proof. vm_compute. reflexivity. Qed.

(** Months and days out of range carry over. *)
Example Date_ymd_carry :
  Date_ymd (fixed 0) 2026 12 1 = Date_ymd (fixed 0) 2027 0 1
  /\ Date_ymd (fixed 0) 2026 10 31 = Date_ymd (fixed 0) 2026 11 1.
Proof. vm_compute. split; reflexivity. Qed.

(** A two-digit year is read as a year of the twentieth century. *)
Example Date_ymd_two_digit_year : Date_ymd (fixed 0) 50 0 1 = Date_ymd (fixed 0) 1950 0 1.
Proof. reflexivity. Qed.

End JSDateFacts.

(** * Facts about time zones *)
Module ZoneFacts.
Import JSDate Quota.

Ltac split_ordered H H1 H2 H3 :=
  cbn [ordered_after] in H;
  apply andb_true_iff in H; destruct H as [H H3];
  apply andb_true_iff in H; destruct H as [H1 H2];
  apply Z.leb_le in H1; apply Z.leb_le in H2.

Ltac split_gap H H1 H2 :=
  cbn [inside_gap] in H;
  apply orb_false_iff in H; destruct H as [H1 H2];
  apply andb_false_iff in H1;
  rewrite !Z.ltb_ge in H1.

Lemma ordered_after_weaken trs : forall Tp lo o Tp' lo',
  ordered_after Tp lo o trs = true -> Tp' <= Tp -> lo' <= lo ->
  ordered_after Tp' lo' o trs = true.
Proof.
  destruct trs as [| [T o'] rest]; intros Tp lo o Tp' lo' H HT Hlo;
    [reflexivity |].
  split_ordered H H1 H2 H3. cbn [ordered_after].
  rewrite H3, andb_true_r. apply andb_true_iff.
  split; apply Z.leb_le; lia.
Qed.

(** After a change the clock never shows a time from before the stretch
    of local time that the change touches. *)
Lemma offset_at_lower trs : forall Tp lo o x,
  ordered_after Tp lo o trs = true ->
  lo <= x + o -> lo <= x + offset_at o trs x.
Proof.
  induction trs as [| [T o'] rest IH]; intros Tp lo o x H Hx; [exact Hx |].
  split_ordered H H1 H2 H3. cbn [offset_at].
  destruct (Z.ltb_spec x T) as [Hlt | Hge]; [exact Hx |].
  apply (IH T lo o' x).
  - apply (ordered_after_weaken _ _ _ _ _ _ H3); lia.
  - lia.
Qed.

(** A local time is read as an instant not before the last change that
    it follows. *)
Lemma offset_for_lower trs : forall Tp lo o tl,
  ordered_after Tp lo o trs = true ->
  Tp <= tl - o -> Tp <= tl - offset_for o trs tl.
Proof.
  induction trs as [| [T o'] rest IH]; intros Tp lo o tl H Hx; [exact Hx |].
  split_ordered H H1 H2 H3. cbn [offset_for].
  destruct (Z.ltb_spec tl (T + Z.max o o')) as [Hlt | Hge]; [exact Hx |].
  assert (T <= tl - offset_for o' rest tl)
    by (apply (IH T (T + Z.max o o') o' tl H3); lia).
  lia.
Qed.

(** Before the instant as which a local time is read, the clock shows
    only earlier local times. *)
Lemma before_reading trs : forall Tp lo o tl t,
  ordered_after Tp lo o trs = true ->
  inside_gap o trs tl = false ->
  t < tl - offset_for o trs tl ->
  t + offset_at o trs t < tl.
Proof.
  induction trs as [| [T o'] rest IH]; intros Tp lo o tl t H Hg Ht.
  - cbn [offset_at offset_for] in *. lia.
  - split_ordered H H1 H2 H3. split_gap Hg Hg1 Hg2.
    cbn [offset_at offset_for] in *.
    destruct (Z.ltb_spec tl (T + Z.max o o')) as [Hlt | Hge].
    + destruct (Z.ltb_spec t T) as [HtT | HtT]; lia.
    + pose proof (offset_for_lower rest T (T + Z.max o o') o' tl H3) as Hlow.
      destruct (Z.ltb_spec t T) as [HtT | HtT]; [lia |].
      apply (IH T (T + Z.max o o') o' tl t H3 Hg2 Ht).
Qed.

(** At that instant the clock shows the local time, or a later one when
    the local time is the first of a stretch that the clock skips. *)
Lemma reading_at_least trs : forall Tp lo o tl,
  ordered_after Tp lo o trs = true ->
  inside_gap o trs tl = false ->
  tl <= (tl - offset_for o trs tl)
        + offset_at o trs (tl - offset_for o trs tl).
Proof.
  induction trs as [| [T o'] rest IH]; intros Tp lo o tl H Hg.
  - cbn [offset_at offset_for]. lia.
  - split_ordered H H1 H2 H3. split_gap Hg Hg1 Hg2.
    cbn [offset_at offset_for].
    destruct (Z.ltb_spec tl (T + Z.max o o')) as [Hlt | Hge].
    + destruct (Z.ltb_spec (tl - o) T) as [HsT | HsT]; [lia |].
      pose proof (offset_at_lower rest T (T + Z.max o o') o' (tl - o) H3) as Hlow.
      lia.
    + pose proof (offset_for_lower rest T (T + Z.max o o') o' tl H3) as Hlow.
      destruct (Z.ltb_spec (tl - offset_for o' rest tl) T) as [HsT | HsT]; [lia |].
      apply (IH T (T + Z.max o o') o' tl H3 Hg2).
Qed.

Lemma ordered_whole z :
  ordered z = true ->
  exists Tp lo, ordered_after Tp lo (standard z) (transitions z) = true.
Proof.
  unfold ordered. destruct (transitions z) as [| [T o'] rest]; intros H.
  - exists 0, 0. reflexivity.
  - exists T, (T + Z.min (standard z) o'). cbn [ordered_after].
    rewrite !Z.leb_refl. exact H.
Qed.

(** In a zone whose changes are in order, the instant as which a local
    time is read is the one at which the clock first shows it, unless
    the local time lies strictly inside a stretch that the clock skips. *)
Lemma UTC_first_shows z tl :
  ordered z = true -> skipped_inside z tl = false ->
  first_shows z tl (UTC z tl).
Proof.
  intros Ho Hg. destruct (ordered_whole z Ho) as (Tp & lo & Hord).
  unfold first_shows, skipped_inside, LocalTime, UTC, LocalTZA in *. split.
  - apply (reading_at_least _ _ _ _ _ Hord Hg).
  - intros t Ht. apply (before_reading _ _ _ _ _ _ Hord Hg Ht).
Qed.

(** An instant at which the clock first shows a local time is not after
    any instant at which the clock shows that time or a later one. *)
Lemma first_shows_le z tl s now :
  first_shows z tl s -> tl <= LocalTime z now -> s <= now.
Proof.
  intros [_ Hfirst] Hle.
  destruct (Z.le_gt_cases s now) as [H | H]; [exact H |].
  pose proof (Hfirst now H). lia.
Qed.

(** There is one such instant at most. *)
Lemma first_shows_unique z tl s s' :
  first_shows z tl s -> first_shows z tl s' -> s = s'.
Proof.
  intros [H1 F1] [H2 F2].
  destruct (Z.lt_trichotomy s s') as [H | [H | H]]; [| exact H |].
  - pose proof (F2 s H). lia.
  - pose proof (F1 s' H). lia.
Qed.

(** A zone without changes shows every local time and skips none. *)
Lemma fixed_on_the_clock o tl :
  on_the_clock (fixed o) tl /\ skipped_inside (fixed o) tl = false.
Proof.
  unfold on_the_clock, LocalTime, UTC, LocalTZA. cbn. split; [lia | reflexivity].
Qed.

End ZoneFacts.

(** * Facts about the window starts *)
Module WindowFacts.
Import JSDate Firestore Async Limits Quota JSDateFacts ZoneFacts.

Lemma MakeFullYear_id y : ~ (0 <= y <= 99) -> MakeFullYear y = y.
Proof.
  intros Hy. unfold MakeFullYear.
  destruct (Z.leb_spec 0 y); destruct (Z.leb_spec y 99); cbn; lia.
Qed.

Lemma TimeWithinDay_range t : 0 <= TimeWithinDay t < msPerDay.
Proof. unfold TimeWithinDay, msPerDay. Z.div_mod_to_equations. lia. Qed.

Lemma MakeTime_zero : MakeTime 0 0 0 0 = 0.
Proof. reflexivity. Qed.

Lemma msPerDay_pos : 0 <= 0 < msPerDay.
Proof. unfold msPerDay. lia. Qed.

(** The constructor reads midnight of the day of [now]. *)
Lemma todayStartOf_eq z now :
  ~ (0 <= getFullYear z now <= 99) ->
  todayStartOf z now = UTC z (local_midnight z now).
Proof.
  intros Hy. unfold todayStartOf, Date_ymd, local_midnight.
  rewrite (MakeFullYear_id _ Hy).
  unfold getFullYear, getMonth, getDate.
  rewrite MakeDay_of_time, MakeTime_zero. reflexivity.
Qed.

(** The constructor reads midnight of the first day of the month of
    [now]. *)
Lemma monthStartOf_eq z now :
  ~ (0 <= getFullYear z now <= 99) ->
  monthStartOf z now = UTC z (local_month_midnight z now).
Proof.
  intros Hy. unfold monthStartOf, Date_ymd, local_month_midnight.
  rewrite (MakeFullYear_id _ Hy).
  unfold getFullYear, getMonth, getDate.
  rewrite MakeDay_first_of_month, MakeTime_zero. reflexivity.
Qed.

Lemma local_midnight_le z now : local_midnight z now <= LocalTime z now.
Proof.
  unfold local_midnight.
  pose proof (MakeDate_Day (LocalTime z now)) as Hn.
  pose proof (TimeWithinDay_range (LocalTime z now)) as Hr.
  unfold MakeDate in *.
  generalize dependent (TimeWithinDay (LocalTime z now)).
  generalize dependent (Day (LocalTime z now)).
  generalize dependent (LocalTime z now).
  intros. lia.
Qed.

Lemma local_month_midnight_le z now :
  local_month_midnight z now <= LocalTime z now.
Proof.
  unfold local_month_midnight, getDate.
  pose proof (MakeDate_Day (LocalTime z now)) as Hn.
  pose proof (TimeWithinDay_range (LocalTime z now)) as Hr.
  pose proof (DateFromTime_range (LocalTime z now)) as Hd.
  unfold MakeDate in *.
  generalize dependent (TimeWithinDay (LocalTime z now)).
  generalize dependent (DateFromTime (LocalTime z now)).
  generalize dependent (Day (LocalTime z now)).
  generalize dependent (LocalTime z now).
  unfold msPerDay. intros. nia.
Qed.

(** The local time [local_midnight] is midnight of the day of [now]. *)
Lemma local_midnight_fields z now :
  Day (local_midnight z now) = Day (LocalTime z now)
  /\ TimeWithinDay (local_midnight z now) = 0.
Proof.
  unfold local_midnight.
  rewrite (Day_MakeDate _ _ msPerDay_pos), (TimeWithinDay_MakeDate _ _ msPerDay_pos).
  split; reflexivity.
Qed.

(** The local time [local_month_midnight] is midnight of the first day
    of the year and month of [now]. *)
Lemma local_month_midnight_fields z now :
  YearFromTime (local_month_midnight z now) = getFullYear z now
  /\ MonthFromTime (local_month_midnight z now) = getMonth z now
  /\ DateFromTime (local_month_midnight z now) = 1
  /\ TimeWithinDay (local_month_midnight z now) = 0.
Proof.
  destruct (first_of_month_fields (LocalTime z now) 0 msPerDay_pos)
    as (Hyear & Hmonth & Hdate).
  rewrite MakeDay_first_of_month in Hyear, Hmonth, Hdate.
  unfold local_month_midnight, getFullYear, getMonth, getDate.
  rewrite (TimeWithinDay_MakeDate _ _ msPerDay_pos).
  repeat split; assumption.
Qed.

Lemma todayStartOf_day_start z now :
  ~ (0 <= getFullYear z now <= 99) ->
  ordered z = true ->
  skipped_inside z (local_midnight z now) = false ->
  local_day_start z now (todayStartOf z now).
Proof.
  intros Hy Ho Hg. rewrite (todayStartOf_eq z now Hy).
  pose proof (UTC_first_shows z _ Ho Hg) as Hf.
  split; [| exact Hf].
  apply (first_shows_le z _ _ now Hf), local_midnight_le.
Qed.

Lemma monthStartOf_month_start z now :
  ~ (0 <= getFullYear z now <= 99) ->
  ordered z = true ->
  skipped_inside z (local_month_midnight z now) = false ->
  local_month_start z now (monthStartOf z now).
Proof.
  intros Hy Ho Hg. rewrite (monthStartOf_eq z now Hy).
  pose proof (UTC_first_shows z _ Ho Hg) as Hf.
  split; [| exact Hf].
  apply (first_shows_le z _ _ now Hf), local_month_midnight_le.
Qed.

(** Two readings on one local day have the same window starts. *)
Lemma same_day_same_starts z n1 n2 :
  Day (LocalTime z n1) = Day (LocalTime z n2) ->
  monthStartOf z n1 = monthStartOf z n2
  /\ todayStartOf z n1 = todayStartOf z n2.
Proof.
  intros H.
  unfold monthStartOf, todayStartOf, getFullYear, getMonth, getDate,
    DateFromTime, MonthFromTime, DayWithinYear, InLeapYear, YearFromTime.
  rewrite H. split; reflexivity.
Qed.

(** Timestamps made from millisecond readings are ordered as the
    readings are. *)
Lemma Timestamp_geb_fromMillis a b :
  Timestamp_geb (Timestamp_fromMillis a) (Timestamp_fromMillis b) = (a >=? b).
Proof.
  unfold Timestamp_geb, Timestamp_fromMillis; cbn [seconds nanoseconds].
  rewrite !Z.geb_leb.
  destruct (Z.eqb_spec (a / 1000) (b / 1000)) as [He | Hne];
    match goal with
    | |- (?x <=? ?y) = (?u <=? ?v) =>
        destruct (Z.leb_spec x y); destruct (Z.leb_spec u v)
    end; try reflexivity; exfalso; Z.div_mod_to_equations; lia.
Qed.

(** Eastern time, 3 November 2026: the month began in summer time, at
    04:00 Greenwich time on the first, and the day in winter time. *)
Example new_york_starts :
  monthStartOf Sample.new_york Sample.new_york_noon = 1793505600000
  /\ todayStartOf Sample.new_york Sample.new_york_noon = 1793682000000
  /\ LocalTZA Sample.new_york 1793505600000 true = -14400000
  /\ LocalTZA Sample.new_york Sample.new_york_noon true = -18000000.
Proof. vm_compute. repeat split; reflexivity. Qed.

(** Cairo, 24 April 2026: the clock goes from midnight straight to
    01:00, and the day starts at the instant of that change, with the
    clock at 01:00. *)
Example cairo_skipped_midnight :
  todayStartOf Sample.cairo Sample.cairo_noon = Sample.cairo_day_start
  /\ LocalTime Sample.cairo Sample.cairo_day_start
     = local_midnight Sample.cairo Sample.cairo_noon + 3600000
  /\ skipped_inside Sample.cairo
       (local_midnight Sample.cairo Sample.cairo_noon) = false
  /\ LocalTime Sample.cairo (Sample.cairo_day_start - 1)
     = local_midnight Sample.cairo Sample.cairo_noon - 1.
Proof. vm_compute. repeat split; reflexivity. Qed.

(** Central Europe, 25 October 2026: the hour from 02:00 to 03:00 is
    shown twice, and a local time in it is read as its first showing. *)
Example berlin_repeated_hour :
  UTC Sample.zone (MakeDate 20751 (MakeTime 2 30 0 0)) = 1792888200000
  /\ LocalTime Sample.zone 1792888200000 = MakeDate 20751 (MakeTime 2 30 0 0)
  /\ LocalTime Sample.zone (1792888200000 + 3600000)
     = MakeDate 20751 (MakeTime 2 30 0 0).
Proof. vm_compute. repeat split; reflexivity. Qed.

End WindowFacts.

(** * Facts about the counters *)
Module CounterFacts.
Import JSDate Firestore Async Limits Quota.

Lemma owned_matches u d :
  matches (where_ "userId" OpEq (VString u)) d = owned u d.
Proof.
  unfold matches, owned, where_; cbn [f_field f_op f_value].
  destruct (d !! "userId") as [[s | n | t] |]; reflexivity.
Qed.

Lemma stamped_matches field start d :
  matches (where_ field OpGe (VTimestamp start)) d = stamped_since field start d.
Proof.
  unfold matches, stamped_since, where_; cbn [f_field f_op f_value].
  destruct (d !! field) as [[s | n | t] |]; reflexivity.
Qed.

(** The query of a counter selects the records in its window. *)
Lemma run_query_window g db u z now :
  size (run_query (query_of g db u z now)) = window_count g db u z now.
Proof.
  unfold size, window_count, run_query. f_equal. f_equal.
  destruct g; cbn [query_of query q_filters q_ref collection_of forallb in_window].
  all: apply List.filter_ext; intros d;
    rewrite ?owned_matches, ?stamped_matches, ?andb_true_r; reflexivity.
Qed.

Lemma denial_reason_material :
  "You've reached the free plan limit of " +:+ show 3 +:+ " study materials."
  = denial_reason UploadMaterial.
Proof. vm_compute. reflexivity. Qed.

Lemma denial_reason_quiz :
  "You've taken " +:+ show 5 +:+ " quizzes this month (free plan limit)."
  = denial_reason TakeQuiz.
Proof. vm_compute. reflexivity. Qed.

Lemma denial_reason_writing :
  "You've used your " +:+ show 1 +:+ " AI writing for today (free plan limit)."
  = denial_reason AiWriting.
Proof. vm_compute. reflexivity. Qed.

(** One run of a counter: it reads the clock if it has a time window,
    sends its query once, and either passes the store's error on or
    decides on the number of records found. *)
Lemma counter_run g db u w tr :
  counter g db u w tr =
  let now := clock w (reads tr) in
  let q := query_of g db u (tza w) now in
  (match fault w (queries tr) q with
   | Some e => inl e
   | None => inr (decision_at g (window_count g db u (tza w) now))
   end,
   counter_events g q now ++ tr).
Proof.
  cbv zeta. rewrite <- run_query_window.
  destruct g; cbn [counter counter_events app];
    unfold checkMaterialLimit, checkQuizLimit, checkWritingLimit,
      bind, newDate, localTZA, getDocs, ret, decision_at;
    cbn [queries query_of static_limit];
    unfold monthStartOf, todayStartOf;
    change (studyMaterials FREE_LIMITS) with 3;
    change (quizzesPerMonth FREE_LIMITS) with 5;
    change (aiWritingsPerDay FREE_LIMITS) with 1;
    rewrite ?denial_reason_material, ?denial_reason_quiz, ?denial_reason_writing;
    match goal with
    | |- context [fault w (queries tr) ?q] => destruct (fault w (queries tr) q)
    end; try reflexivity;
    match goal with
    | |- context [?a >=? ?b] => destruct (a >=? b)
    end; reflexivity.
Qed.

Lemma window_count_nonneg g db u z now : 0 <= window_count g db u z now.
Proof. unfold window_count. apply Zle_0_nat. Qed.

End CounterFacts.

(** * Facts about the evaluator *)
Module EvaluatorFacts.
Import JSDate Firestore Async Limits Quota CounterFacts.

Lemma getUserPlan_run u w tr :
  getUserPlan u w tr = (inr "free", EvPlan u :: tr).
Proof. reflexivity. Qed.

Lemma performActionOnPlan_paid plan db u a :
  plan <> "free" -> performActionOnPlan plan db u a = ret allow_only.
Proof.
  intros Hp. unfold performActionOnPlan.
  destruct (String.eqb_spec plan "free"); [contradiction | reflexivity].
Qed.

Lemma performActionOnPlan_gated g db u :
  performActionOnPlan "free" db u (action_name g) = counter g db u.
Proof. destruct g; reflexivity. Qed.

Lemma performActionOnPlan_other plan db u a :
  a <> "upload_material" -> a <> "take_quiz" -> a <> "ai_writing" ->
  performActionOnPlan plan db u a = ret allow_only.
Proof.
  intros H1 H2 H3. unfold performActionOnPlan.
  destruct (negb (String.eqb plan "free")); [reflexivity |].
  destruct (String.eqb_spec a "upload_material"); [contradiction |].
  destruct (String.eqb_spec a "take_quiz"); [contradiction |].
  destruct (String.eqb_spec a "ai_writing"); [contradiction |].
  destruct (String.eqb a "generate_questions"); reflexivity.
Qed.

Lemma canUserPerformAction_free db u a w tr :
  canUserPerformAction db u a w tr
  = performActionOnPlan "free" db u a w (EvPlan u :: tr).
Proof. reflexivity. Qed.

Lemma canUserPerformAction_gated g db u w tr :
  canUserPerformAction db u (action_name g) w tr
  = counter g db u w (EvPlan u :: tr).
Proof.
  rewrite canUserPerformAction_free, performActionOnPlan_gated. reflexivity.
Qed.

(** The properties of the Decision a counter makes on [n] records. *)
Lemma decision_at_fields g n :
  current (decision_at g n) = Some n
  /\ limit (decision_at g n) = Some (static_limit g)
  /\ (allowed (decision_at g n) = false <-> n >= static_limit g)
  /\ (allowed (decision_at g n) = true <-> n < static_limit g)
  /\ (allowed (decision_at g n) = true ->
      remaining (decision_at g n) = Some (static_limit g - n))
  /\ shown_remaining (decision_at g n) = Some (Z.max (static_limit g - n) 0).
Proof.
  unfold shown_remaining, decision_at. rewrite Z.geb_leb.
  destruct (Z.leb_spec (static_limit g) n); cbn [allowed current limit remaining];
    repeat split; try reflexivity; try discriminate; try lia; intros; f_equal; lia.
Qed.

(** A counter returns exactly when the store answers its query. *)
Lemma counter_returns g db u w tr d tr' :
  counter g db u w tr = (inr d, tr') ->
  d = decision_at g (window_count g db u (tza w) (clock w (reads tr)))
  /\ fault w (queries tr)
           (query_of g db u (tza w) (clock w (reads tr))) = None
  /\ tr' = counter_events g (query_of g db u (tza w) (clock w (reads tr)))
                          (clock w (reads tr)) ++ tr.
Proof.
  rewrite counter_run. cbv zeta.
  destruct (fault w (queries tr) _); intros H; inversion H; auto.
Qed.

Lemma counter_throws g db u w tr e tr' :
  counter g db u w tr = (inl e, tr') ->
  fault w (queries tr)
        (query_of g db u (tza w) (clock w (reads tr))) = Some e
  /\ tr' = counter_events g (query_of g db u (tza w) (clock w (reads tr)))
                          (clock w (reads tr)) ++ tr.
Proof.
  rewrite counter_run. cbv zeta.
  destruct (fault w (queries tr) _); intros H; inversion H; auto.
Qed.

Lemma queries_counter_events g q now tr :
  queries (counter_events g q now ++ tr) = S (queries tr).
Proof. destruct g; reflexivity. Qed.

Lemma reads_counter_events g q now tr :
  reads (counter_events g q now ++ tr)
  = match g with UploadMaterial => reads tr | _ => S (reads tr) end.
Proof. destruct g; reflexivity. Qed.

Lemma lookups_counter_events g q now tr :
  lookups (counter_events g q now ++ tr) = lookups tr.
Proof. destruct g; reflexivity. Qed.

Lemma run_pair {A} (m : (FirestoreError + A) * Trace) r :
  fst m = r -> m = (r, snd m).
Proof. intros <-. apply surjective_pairing. Qed.

(** The run of [getUserUsageStats] when the store answers all three
    queries. *)
Lemma getUserUsageStats_run db u w tr :
  let z := tza w in
  let n0 := clock w (reads tr) in
  let n1 := clock w (S (reads tr)) in
  let qm := query_of UploadMaterial db u z n0 in
  let qq := query_of TakeQuiz db u z n0 in
  let qw := query_of AiWriting db u z n1 in
  getUserUsageStats db u w tr =
  match fault w (queries tr) qm with
  | Some e => (inl e, EvGetDocs qm :: tr)
  | None =>
      match fault w (S (queries tr)) qq with
      | Some e => (inl e, EvGetDocs qq :: EvNow n0 :: EvGetDocs qm :: tr)
      | None =>
          match fault w (S (S (queries tr))) qw with
          | Some e =>
              (inl e, EvGetDocs qw :: EvNow n1 :: EvGetDocs qq :: EvNow n0
                        :: EvGetDocs qm :: tr)
          | None =>
              (inr {| materials :=
                        usage_of (decision_at UploadMaterial
                                    (window_count UploadMaterial db u z n0));
                      quizzes :=
                        usage_of (decision_at TakeQuiz
                                    (window_count TakeQuiz db u z n0));
                      writings :=
                        usage_of (decision_at AiWriting
                                    (window_count AiWriting db u z n1)) |},
               EvGetDocs qw :: EvNow n1 :: EvGetDocs qq :: EvNow n0
                 :: EvGetDocs qm :: tr)
          end
      end
  end.
Proof.
  cbv zeta. unfold getUserUsageStats, bind.
  change (checkMaterialLimit db u) with (counter UploadMaterial db u).
  change (checkQuizLimit db u) with (counter TakeQuiz db u).
  change (checkWritingLimit db u) with (counter AiWriting db u).
  rewrite (counter_run UploadMaterial). cbv zeta. cbn [counter_events app].
  destruct (fault w (queries tr) _); [reflexivity |].
  rewrite (counter_run TakeQuiz). cbv zeta. cbn [counter_events app reads queries].
  destruct (fault w (S (queries tr)) _); [reflexivity |].
  rewrite (counter_run AiWriting). cbv zeta. cbn [counter_events app reads queries].
  destruct (fault w (S (S (queries tr))) _); reflexivity.
Qed.

(** The count of a window depends on the clock through the window start
    only. *)
Lemma window_count_start g db u z n1 n2 :
  window_start (action_name g) z n1 = window_start (action_name g) z n2 ->
  window_count g db u z n1 = window_count g db u z n2.
Proof.
  unfold window_count, window_start, in_window.
  destruct g; cbn [action_name String.eqb Ascii.eqb Bool.eqb];
    intros H; [reflexivity | |]; injection H as H; rewrite H; reflexivity.
Qed.

Lemma gated_or_not a :
  (exists g, a = action_name g)
  \/ (a <> "upload_material" /\ a <> "take_quiz" /\ a <> "ai_writing").
Proof.
  destruct (String.eqb_spec a "upload_material") as [-> | H1];
    [left; exists UploadMaterial; reflexivity |].
  destruct (String.eqb_spec a "take_quiz") as [-> | H2];
    [left; exists TakeQuiz; reflexivity |].
  destruct (String.eqb_spec a "ai_writing") as [-> | H3];
    [left; exists AiWriting; reflexivity |].
  right. auto.
Qed.

End EvaluatorFacts.

(** * The scenarios of the design notes

    Evaluated on the sample store at eleven in the morning of 3 November
    2026. *)
Module Scenarios.
Import JSDate Firestore Async Limits Quota Sample.

(** Three materials against the limit three: denied. *)
Example three_materials_denied :
  fst (canUserPerformAction store "ana" "upload_material" (still morning) [])
  = inr {| allowed := false;
           reason := Some "You've reached the free plan limit of 3 study materials.";
           current := Some 3;
           limit := Some 3;
           upgradeMessage := Some "Upgrade to Starter ($10/month) for 20 materials or Pro ($20/month) for unlimited!";
           remaining := None |}.
Proof. vm_compute. reflexivity. Qed.

(** Two materials: allowed, one remaining. *)
Example two_materials_allowed :
  fst (canUserPerformAction store "ben" "upload_material" (still morning) [])
  = inr {| allowed := true; reason := None; current := Some 2;
           limit := Some 3; upgradeMessage := None; remaining := Some 1 |}.
Proof. vm_compute. reflexivity. Qed.

(** Five quizzes this month, the first at the very start of the month,
    and two before it, one of them a millisecond before: only the five
    count. *)
Example five_quizzes_this_month_denied :
  fst (canUserPerformAction store "ana" "take_quiz" (still morning) [])
  = inr {| allowed := false;
           reason := Some "You've taken 5 quizzes this month (free plan limit).";
           current := Some 5;
           limit := Some 5;
           upgradeMessage := Some "Upgrade to Starter or Pro for unlimited quizzes!";
           remaining := None |}.
Proof. vm_compute. reflexivity. Qed.

(** One writing today: denied; the writing of yesterday does not count
    against the other user. *)
Example one_writing_today_denied :
  fst (canUserPerformAction store "ana" "ai_writing" (still morning) [])
  = inr {| allowed := false;
           reason := Some "You've used your 1 AI writing for today (free plan limit).";
           current := Some 1;
           limit := Some 1;
           upgradeMessage := Some "Upgrade to Starter for 10 writings/day or Pro for unlimited!";
           remaining := None |}
  /\ fst (canUserPerformAction store "ben" "ai_writing" (still morning) [])
     = inr {| allowed := true; reason := None; current := Some 0;
              limit := Some 1; upgradeMessage := None; remaining := Some 1 |}.
Proof. vm_compute. split; reflexivity. Qed.

(** The dashboard of a user with no record. *)
Example usage_of_a_new_user :
  fst (getUserUsageStats empty_store "eve" (still morning) [])
  = inr {| materials := Usage.mk (Some 0) (Some 3) (Some 3);
           quizzes := Usage.mk (Some 0) (Some 5) (Some 5);
           writings := Usage.mk (Some 0) (Some 1) (Some 1) |}.
Proof. vm_compute. reflexivity. Qed.

(** The order of the collaborator calls of one evaluation. *)
Example calls_of_take_quiz :
  exists q,
    snd (canUserPerformAction empty_store "eve" "take_quiz" (still morning) [])
    = [EvGetDocs q; EvNow morning; EvPlan "eve"].
Proof. eexists. vm_compute. reflexivity. Qed.

End Scenarios.

(** * The claims *)
Import JSDate Firestore Async Limits Quota.
Import JSDateFacts WindowFacts CounterFacts EvaluatorFacts.

(** C1. For a free-plan user and each of the three gated actions,
    [canUserPerformAction] returns a Decision exactly when the store
    answers the query, and that Decision has [allowed = false] if and only
    if the number of the user's records in the window is at least the
    static limit of the action: a count equal to the limit is denied, a
    count below it is allowed. *)
Theorem C1_denied_iff_count_reaches_limit g db u w tr :
  let n := window_count g db u (tza w) (clock w (reads tr)) in
  (forall d tr',
      canUserPerformAction db u (action_name g) w tr = (inr d, tr') ->
      current d = Some n
      /\ limit d = Some (static_limit g)
      /\ (allowed d = false <-> n >= static_limit g)
      /\ (n = static_limit g -> allowed d = false)
      /\ (n < static_limit g -> allowed d = true))
  /\ (fault w (queries tr)
            (query_of g db u (tza w) (clock w (reads tr))) = None ->
      exists d tr',
        canUserPerformAction db u (action_name g) w tr = (inr d, tr')).
Proof.
  intros n. split.
  - intros d tr' H. rewrite canUserPerformAction_gated in H.
    apply counter_returns in H. destruct H as (-> & _ & _).
    cbn [reads]. fold n.
    destruct (decision_at_fields g n) as (Hc & Hl & Hd & Ha & _).
    split; [exact Hc | split; [exact Hl | split; [exact Hd | split]]].
    + intros Hn. apply Hd. lia.
    + intros Hn. apply Ha. exact Hn.
  - intros Hf. rewrite canUserPerformAction_gated, counter_run. cbv zeta.
    cbn [reads queries]. rewrite Hf. eauto.
Qed.

Lemma C1_witness :
  exists d tr',
    canUserPerformAction Sample.store "ana" "upload_material"
                         (Sample.still Sample.morning) [] = (inr d, tr')
    /\ current d = Some 3 /\ allowed d = false.
Proof.
  destruct (C1_denied_iff_count_reaches_limit
              UploadMaterial Sample.store "ana" (Sample.still Sample.morning) [])
    as [Hall Hex].
  destruct (Hex eq_refl) as (d & tr' & Hrun).
  exists d, tr'. split; [exact Hrun |].
  destruct (Hall d tr' Hrun) as (Hc & _ & _ & Heq & _).
  split; [exact Hc | apply Heq; vm_compute; reflexivity].
Defined.

(** C2. The parameters of the three counters.  The material counter
    counts every [study_materials] record of the user, with no time
    filter, against the limit 3.  The quiz counter counts the
    [quiz_results] records of the user whose [completedAt] is not before
    the start of the current local calendar month, against the limit 5.
    The writing counter counts the [ai_writings] records of the user whose
    [createdAt] is not before the start of the current local calendar day,
    against the limit 1.  Both comparisons are inclusive.  The window
    starts are the starts of the local calendar month and day, summer
    time included: the instant, not after the clock reading, at which the
    local clock first shows midnight of the first day of the month, or of
    the day; it shows exactly that midnight unless the clock is set
    forward over it, and then the time to which it is set.  This holds in
    every zone whose changes are in order, unless that midnight lies
    strictly inside a stretch of local time that the clock skips, and for
    every clock reading whose local year is not one of the two-digit
    years 0..99, which the [Date] constructor reads as 19xx. *)
Theorem C2_counter_parameters db u w tr :
  let z := tza w in
  let now := clock w (reads tr) in
  let count (path : string) (keep : Doc -> bool) :=
    Z.of_nat (length (List.filter keep (docs_of (collection db path)))) in
  (forall d tr',
      checkMaterialLimit db u w tr = (inr d, tr') ->
      current d = Some (count "study_materials" (owned u))
      /\ limit d = Some 3)
  /\ (forall d tr',
      checkQuizLimit db u w tr = (inr d, tr') ->
      current d
      = Some (count "quiz_results"
                (fun r => owned u r
                          && stamped_since "completedAt"
                               (Timestamp_fromDate (monthStartOf z now)) r))
      /\ limit d = Some 5)
  /\ (forall d tr',
      checkWritingLimit db u w tr = (inr d, tr') ->
      current d
      = Some (count "ai_writings"
                (fun r => owned u r
                          && stamped_since "createdAt"
                               (Timestamp_fromDate (todayStartOf z now)) r))
      /\ limit d = Some 1)
  /\ (forall g,
      fault w (queries tr) (query_of g db u z now) = None ->
      exists d tr', counter g db u w tr = (inr d, tr'))
  /\ (~ (0 <= getFullYear z now <= 99) ->
      ordered z = true ->
      (skipped_inside z (local_month_midnight z now) = false ->
       local_month_start z now (monthStartOf z now))
      /\ (skipped_inside z (local_midnight z now) = false ->
          local_day_start z now (todayStartOf z now))
      /\ (on_the_clock z (local_month_midnight z now) ->
          LocalTime z (monthStartOf z now) = local_month_midnight z now)
      /\ (on_the_clock z (local_midnight z now) ->
          LocalTime z (todayStartOf z now) = local_midnight z now))
  /\ (YearFromTime (local_month_midnight z now) = getFullYear z now
      /\ MonthFromTime (local_month_midnight z now) = getMonth z now
      /\ DateFromTime (local_month_midnight z now) = 1
      /\ TimeWithinDay (local_month_midnight z now) = 0
      /\ Day (local_midnight z now) = Day (LocalTime z now)
      /\ TimeWithinDay (local_midnight z now) = 0)
  /\ (forall field start at_ (r : Doc),
      r !! field = Some (VTimestamp (Timestamp_fromDate at_)) ->
      stamped_since field (Timestamp_fromDate start) r = (at_ >=? start)).
Proof.
  intros z now count.
  assert (Hrun : forall g d tr',
             counter g db u w tr = (inr d, tr') ->
             current d = Some (window_count g db u z now)
             /\ limit d = Some (static_limit g)).
  { intros g d tr' H. apply counter_returns in H. destruct H as (-> & _ & _).
    destruct (decision_at_fields g (window_count g db u (tza w) (clock w (reads tr))))
      as (Hc & Hl & _).
    split; assumption. }
  split; [exact (Hrun UploadMaterial) |].
  split; [exact (Hrun TakeQuiz) |].
  split; [exact (Hrun AiWriting) |].
  split.
  { intros g Hf. rewrite counter_run. cbv zeta. fold z now. rewrite Hf. eauto. }
  split.
  { intros Hy Ho.
    split; [intros Hg; apply monthStartOf_month_start; assumption |].
    split; [intros Hg; apply todayStartOf_day_start; assumption |].
    split; intros Hon.
    - rewrite (monthStartOf_eq z now Hy). exact Hon.
    - rewrite (todayStartOf_eq z now Hy). exact Hon. }
  split.
  { destruct (local_month_midnight_fields z now) as (H1 & H2 & H3 & H4).
    destruct (local_midnight_fields z now) as (H5 & H6).
    repeat split; assumption. }
  intros field start at_ r Hr. unfold stamped_since. rewrite Hr.
  apply Timestamp_geb_fromMillis.
Qed.

Lemma C2_witness :
  (exists d tr',
      checkQuizLimit Sample.store "ana" (Sample.still Sample.morning) []
      = (inr d, tr')
      /\ current d = Some 5 /\ limit d = Some 5)
  /\ local_month_start Sample.zone Sample.morning Sample.november
  /\ local_day_start Sample.zone Sample.morning Sample.today
  /\ local_month_start Sample.new_york Sample.new_york_noon
       Sample.new_york_november
  /\ local_day_start Sample.new_york Sample.new_york_noon
       Sample.new_york_today
  /\ local_day_start Sample.cairo Sample.cairo_noon Sample.cairo_day_start
  /\ stamped_since "completedAt" (Timestamp_fromDate Sample.november)
       (Sample.record "ana" "completedAt" Sample.november) = true
  /\ stamped_since "completedAt" (Timestamp_fromDate Sample.november)
       (Sample.record "ana" "completedAt" (Sample.november - 1)) = false.
Proof.
  destruct (C2_counter_parameters Sample.store "ana"
              (Sample.still Sample.morning) [])
    as (_ & Hquiz & _ & Hex & Hstart & _ & Hincl).
  destruct (C2_counter_parameters Sample.store "ana"
              (Sample.in_new_york Sample.new_york_noon) [])
    as (_ & _ & _ & _ & Hyork & _).
  destruct (C2_counter_parameters Sample.store "ana"
              (mkWorld (fun _ => Sample.cairo_noon) Sample.cairo
                       (fun _ _ => None)) [])
    as (_ & _ & _ & _ & Hcairo & _).
  assert (Hy : ~ (0 <= getFullYear Sample.zone Sample.morning <= 99))
    by (vm_compute; intros [_ H]; apply H; reflexivity).
  assert (Hy' : ~ (0 <= getFullYear Sample.new_york Sample.new_york_noon <= 99))
    by (vm_compute; intros [_ H]; apply H; reflexivity).
  assert (Hy'' : ~ (0 <= getFullYear Sample.cairo Sample.cairo_noon <= 99))
    by (vm_compute; intros [_ H]; apply H; reflexivity).
  destruct (Hstart Hy eq_refl) as (Hmonth & Hday & _).
  destruct (Hyork Hy' eq_refl) as (Hmonth' & Hday' & _).
  destruct (Hcairo Hy'' eq_refl) as (_ & Hday'' & _).
  split.
  { destruct (Hex TakeQuiz eq_refl) as (d & tr' & Hrun).
    exists d, tr'. split; [exact Hrun |]. exact (Hquiz d tr' Hrun). }
  split; [exact (Hmonth eq_refl) |].
  split; [exact (Hday eq_refl) |].
  split; [exact (Hmonth' eq_refl) |].
  split; [exact (Hday' eq_refl) |].
  split; [exact (Hday'' eq_refl) |].
  split.
  - rewrite (Hincl _ _ Sample.november); reflexivity.
  - rewrite (Hincl _ _ (Sample.november - 1)); reflexivity.
Defined.

(** C3. Every Decision a window counter produces carries [current] and
    [limit]; when it allows, [remaining] is [max (limit - current) 0],
    which is [limit - current] because [current < limit]; when it denies,
    [current >= limit]. *)
Theorem C3_decision_invariant g db u w tr d tr'
    (Hrun : counter g db u w tr = (inr d, tr')) :
  exists c l,
    current d = Some c
    /\ limit d = Some l
    /\ (allowed d = true ->
        remaining d = Some (Z.max (l - c) 0)
        /\ remaining d = Some (l - c)
        /\ c < l)
    /\ (allowed d = false -> c >= l).
Proof.
  apply counter_returns in Hrun. destruct Hrun as (-> & _ & _).
  set (n := window_count g db u (tza w) (clock w (reads tr))).
  destruct (decision_at_fields g n) as (Hc & Hl & Hd & Ha & Hr & _).
  exists n, (static_limit g).
  split; [exact Hc | split; [exact Hl | split]].
  - intros H. pose proof (proj1 Ha H) as Hlt. rewrite (Hr H).
    split; [f_equal; lia | split; [reflexivity | exact Hlt]].
  - intros H. apply Hd, H.
Qed.

Lemma C3_witness :
  exists c l,
    current (decision_at TakeQuiz 1) = Some c
    /\ limit (decision_at TakeQuiz 1) = Some l
    /\ (allowed (decision_at TakeQuiz 1) = true ->
        remaining (decision_at TakeQuiz 1) = Some (Z.max (l - c) 0)
        /\ remaining (decision_at TakeQuiz 1) = Some (l - c)
        /\ c < l)
    /\ (allowed (decision_at TakeQuiz 1) = false -> c >= l).
Proof.
  apply (C3_decision_invariant TakeQuiz Sample.store "ben"
           (Sample.still Sample.morning) [] (decision_at TakeQuiz 1)
           (snd (counter TakeQuiz Sample.store "ben"
                         (Sample.still Sample.morning) []))).
  apply run_pair. vm_compute. reflexivity.
Defined.

(** C4. When the plan obtained for the user is not [free],
    [canUserPerformAction] returns [{allowed: true}], an object with no
    [current], [limit], [remaining], [reason] or [upgradeMessage], for
    every action and every store, and sends no query: the trace is the one
    the plan resolver left. *)
Theorem C4_paid_plan_allows_without_query
    (resolvePlan : string -> M string) db u a w tr plan tr1
    (Hplan : resolvePlan u w tr = (inr plan, tr1))
    (Hpaid : plan <> "free") :
  canUserPerformActionWith resolvePlan db u a w tr = (inr allow_only, tr1)
  /\ performActionOnPlan plan db u a w tr1 = (inr allow_only, tr1)
  /\ allowed allow_only = true
  /\ current allow_only = None
  /\ limit allow_only = None
  /\ remaining allow_only = None
  /\ reason allow_only = None
  /\ upgradeMessage allow_only = None.
Proof.
  assert (H : performActionOnPlan plan db u a w tr1 = (inr allow_only, tr1)).
  { rewrite (performActionOnPlan_paid _ _ _ _ Hpaid). reflexivity. }
  split.
  - unfold canUserPerformActionWith, bind. rewrite Hplan. exact H.
  - split; [exact H | repeat split].
Qed.

Lemma C4_witness :
  canUserPerformActionWith (fun _ => ret "pro") Sample.store "ana" "upload_material"
                           (Sample.still Sample.morning) []
  = (inr allow_only, []).
Proof.
  apply (C4_paid_plan_allows_without_query
           (fun _ => ret "pro") Sample.store "ana" "upload_material"
           (Sample.still Sample.morning) [] "pro" [] eq_refl).
  discriminate.
Defined.

(** C5. For every user and every plan, the action [generate_questions],
    and every action other than [upload_material], [take_quiz] and
    [ai_writing], is answered [{allowed: true}] without any query, so
    nothing is counted against the questions-per-material limit. *)
Theorem C5_ungated_actions_allowed plan db u a w tr
    (Ha : a = "generate_questions"
          \/ (a <> "upload_material" /\ a <> "take_quiz" /\ a <> "ai_writing"
              /\ a <> "generate_questions")) :
  performActionOnPlan plan db u a w tr = (inr allow_only, tr)
  /\ canUserPerformAction db u a w tr = (inr allow_only, EvPlan u :: tr)
  /\ queries (EvPlan u :: tr) = queries tr.
Proof.
  assert (Hne : a <> "upload_material" /\ a <> "take_quiz" /\ a <> "ai_writing").
  { destruct Ha as [-> | (H1 & H2 & H3 & _)]; [| auto].
    repeat split; discriminate. }
  destruct Hne as (H1 & H2 & H3).
  split; [| split; [| reflexivity]].
  - rewrite (performActionOnPlan_other plan db u a H1 H2 H3). reflexivity.
  - rewrite canUserPerformAction_free,
      (performActionOnPlan_other "free" db u a H1 H2 H3). reflexivity.
Qed.

Lemma C5_witness :
  performActionOnPlan "free" Sample.store "ana" "generate_questions"
                      (Sample.still Sample.morning) []
  = (inr allow_only, [])
  /\ canUserPerformAction Sample.store "ana" "export_notes"
                          (Sample.still Sample.morning) []
     = (inr allow_only, [EvPlan "ana"]).
Proof.
  split.
  - apply (C5_ungated_actions_allowed "free" Sample.store "ana"
             "generate_questions" (Sample.still Sample.morning) []).
    left. reflexivity.
  - apply (C5_ungated_actions_allowed "free" Sample.store "ana"
             "export_notes" (Sample.still Sample.morning) []).
    right. repeat split; discriminate.
Defined.

(** C6. [getUserUsageStats] runs the three counters one after the other
    for the given user and never calls the plan resolver.  When the store
    answers the three queries it returns [{materials, quizzes, writings}]:
    in each, [used] and [limit] are the [current] and [limit] of that
    counter's Decision, and [remaining] is 0 when the counter denied and
    the counter's [remaining] when it allowed.  A user with no record in
    any window gets [used: 0] and [remaining: limit] three times. *)
Theorem C6_usage_stats db u w tr :
  let z := tza w in
  let n0 := clock w (reads tr) in
  let n1 := clock w (S (reads tr)) in
  let cm := window_count UploadMaterial db u z n0 in
  let cq := window_count TakeQuiz db u z n0 in
  let cw := window_count AiWriting db u z n1 in
  let shows (x : Usage.t) (d : Decision) :=
    Usage.used x = current d
    /\ Usage.limit x = limit d
    /\ (allowed d = false -> Usage.remaining x = Some 0)
    /\ (allowed d = true -> Usage.remaining x = remaining d) in
  fault w (queries tr) (query_of UploadMaterial db u z n0) = None ->
  fault w (S (queries tr)) (query_of TakeQuiz db u z n0) = None ->
  fault w (S (S (queries tr))) (query_of AiWriting db u z n1) = None ->
  exists dm dq dw tr1 tr2 tr3 s,
    checkMaterialLimit db u w tr = (inr dm, tr1)
    /\ checkQuizLimit db u w tr1 = (inr dq, tr2)
    /\ checkWritingLimit db u w tr2 = (inr dw, tr3)
    /\ getUserUsageStats db u w tr = (inr s, tr3)
    /\ shows (materials s) dm
    /\ shows (quizzes s) dq
    /\ shows (writings s) dw
    /\ lookups tr3 = lookups tr
    /\ queries tr3 = S (S (S (queries tr)))
    /\ Usage.used (materials s) = Some cm
    /\ Usage.used (quizzes s) = Some cq
    /\ Usage.used (writings s) = Some cw
    /\ (cm = 0 -> cq = 0 -> cw = 0 ->
        s = {| materials := Usage.mk (Some 0) (Some 3) (Some 3);
               quizzes := Usage.mk (Some 0) (Some 5) (Some 5);
               writings := Usage.mk (Some 0) (Some 1) (Some 1) |}).
Proof.
  intros z n0 n1 cm cq cw shows Hm Hq Hw.
  assert (Hshows : forall d, shows (usage_of d) d).
  { intros d. unfold shows, usage_of, shown_remaining; cbn [Usage.used Usage.limit Usage.remaining].
    destruct (allowed d); repeat split; intros; try reflexivity; discriminate. }
  pose proof (getUserUsageStats_run db u w tr) as Hrun. cbv zeta in Hrun.
  fold z n0 n1 in Hrun. rewrite Hm, Hq, Hw in Hrun. fold cm cq cw in Hrun.
  pose proof (counter_run UploadMaterial db u w tr) as H1. cbv zeta in H1.
  fold z n0 in H1. rewrite Hm in H1. fold cm in H1.
  cbn [counter counter_events app] in H1.
  pose proof (counter_run TakeQuiz db u w
                (EvGetDocs (query_of UploadMaterial db u z n0) :: tr)) as H2.
  cbv zeta in H2. cbn [reads queries] in H2. fold z n0 in H2.
  rewrite Hq in H2. fold cq in H2. cbn [counter counter_events app] in H2.
  pose proof (counter_run AiWriting db u w
                (EvGetDocs (query_of TakeQuiz db u z n0) :: EvNow n0
                   :: EvGetDocs (query_of UploadMaterial db u z n0) :: tr)) as H3.
  cbv zeta in H3. cbn [reads queries] in H3. fold z n1 in H3.
  rewrite Hw in H3. fold cw in H3. cbn [counter counter_events app] in H3.
  do 7 eexists.
  split; [exact H1 |]. split; [exact H2 |]. split; [exact H3 |].
  split; [exact Hrun |].
  cbn [materials quizzes writings].
  split; [apply Hshows |]. split; [apply Hshows |]. split; [apply Hshows |].
  split; [reflexivity |]. split; [reflexivity |].
  split; [apply decision_at_fields |].
  split; [apply decision_at_fields |].
  split; [apply decision_at_fields |].
  intros -> -> ->. reflexivity.
Qed.

Lemma C6_witness :
  exists tr',
    getUserUsageStats Sample.empty_store "ana" (Sample.still Sample.morning) []
    = (inr {| materials := Usage.mk (Some 0) (Some 3) (Some 3);
              quizzes := Usage.mk (Some 0) (Some 5) (Some 5);
              writings := Usage.mk (Some 0) (Some 1) (Some 1) |}, tr')
    /\ lookups tr' = O.
Proof.
  destruct (C6_usage_stats Sample.empty_store "ana"
              (Sample.still Sample.morning) [] eq_refl eq_refl eq_refl)
    as (dm & dq & dw & tr1 & tr2 & tr3 & s & _ & _ & _ & Hrun & _ & _ & _
        & Hl & _ & _ & _ & _ & Hzero).
  exists tr3. rewrite <- (Hzero eq_refl eq_refl eq_refl).
  split; [exact Hrun | exact Hl].
Defined.

(** C7. An error with which the store answers a query of a counter is the
    error that [canUserPerformAction] or [getUserUsageStats] throws: the
    same error, after exactly the queries sent so far, with no second
    attempt and no Decision in its place; and these operations throw no
    error that the store did not raise. *)
Theorem C7_store_failure_propagates db u w tr e :
  let z := tza w in
  let n0 := clock w (reads tr) in
  let n1 := clock w (S (reads tr)) in
  let qm := query_of UploadMaterial db u z n0 in
  let qq := query_of TakeQuiz db u z n0 in
  let qw := query_of AiWriting db u z n1 in
  (forall g,
      fault w (queries tr) (query_of g db u z n0) = Some e ->
      exists tr',
        canUserPerformAction db u (action_name g) w tr = (inl e, tr')
        /\ queries tr' = S (queries tr))
  /\ (fault w (queries tr) qm = Some e ->
      exists tr',
        getUserUsageStats db u w tr = (inl e, tr')
        /\ queries tr' = S (queries tr))
  /\ (fault w (queries tr) qm = None ->
      fault w (S (queries tr)) qq = Some e ->
      exists tr',
        getUserUsageStats db u w tr = (inl e, tr')
        /\ queries tr' = S (S (queries tr)))
  /\ (fault w (queries tr) qm = None ->
      fault w (S (queries tr)) qq = None ->
      fault w (S (S (queries tr))) qw = Some e ->
      exists tr',
        getUserUsageStats db u w tr = (inl e, tr')
        /\ queries tr' = S (S (S (queries tr))))
  /\ (forall a tr',
      canUserPerformAction db u a w tr = (inl e, tr') ->
      exists n q, fault w n q = Some e)
  /\ (forall tr',
      getUserUsageStats db u w tr = (inl e, tr') ->
      exists n q, fault w n q = Some e).
Proof.
  intros z n0 n1 qm qq qw.
  pose proof (getUserUsageStats_run db u w tr) as Hrun. cbv zeta in Hrun.
  fold z n0 n1 in Hrun. fold qm qq qw in Hrun.
  split.
  { intros g Hf. rewrite canUserPerformAction_gated, counter_run. cbv zeta.
    cbn [reads queries]. fold z n0. rewrite Hf.
    eexists. split; [reflexivity |]. rewrite queries_counter_events. reflexivity. }
  split.
  { intros Hm. rewrite Hrun, Hm. eexists. split; reflexivity. }
  split.
  { intros Hm Hq. rewrite Hrun, Hm, Hq. eexists. split; reflexivity. }
  split.
  { intros Hm Hq Hw. rewrite Hrun, Hm, Hq, Hw. eexists. split; reflexivity. }
  split.
  { intros a tr' H. rewrite canUserPerformAction_free in H.
    unfold performActionOnPlan in H. cbn [String.eqb Ascii.eqb Bool.eqb negb] in H.
    destruct (String.eqb a "upload_material").
    { apply (counter_throws UploadMaterial) in H. destruct H as [H _]. eauto. }
    destruct (String.eqb a "take_quiz").
    { apply (counter_throws TakeQuiz) in H. destruct H as [H _]. eauto. }
    destruct (String.eqb a "ai_writing").
    { apply (counter_throws AiWriting) in H. destruct H as [H _]. eauto. }
    destruct (String.eqb a "generate_questions"); discriminate H. }
  intros tr' H. rewrite Hrun in H.
  destruct (fault w (queries tr) qm) eqn:Hm; [inversion H; subst; eauto |].
  destruct (fault w (S (queries tr)) qq) eqn:Hq; [inversion H; subst; eauto |].
  destruct (fault w (S (S (queries tr))) qw) eqn:Hw; [inversion H; subst; eauto |].
  discriminate H.
Qed.

Lemma C7_witness :
  (exists tr',
      canUserPerformAction Sample.store "ana" "take_quiz" (Sample.failing 0) []
      = (inl Sample.unavailable, tr')
      /\ queries tr' = 1%nat)
  /\ (exists tr',
      getUserUsageStats Sample.store "ana" (Sample.failing 1) []
      = (inl Sample.unavailable, tr')
      /\ queries tr' = 2%nat).
Proof.
  split.
  - destruct (C7_store_failure_propagates Sample.store "ana" (Sample.failing 0) []
                Sample.unavailable) as (H & _).
    exact (H TakeQuiz eq_refl).
  - destruct (C7_store_failure_propagates Sample.store "ana" (Sample.failing 1) []
                Sample.unavailable) as (_ & _ & H & _).
    exact (H eq_refl eq_refl).
Defined.

(** C8, as the code has it.  Two consecutive calls of
    [canUserPerformAction] on the same store that both return a Decision
    return the same Decision provided the two clock readings give the same
    window start for the action, which they do when they fall on one local
    calendar day; [upload_material] and the ungated actions have no window
    start, so for them nothing is asked of the clock. *)
Theorem C8_same_window_same_decision db u a w tr d1 tr1 d2 tr2
    (H1 : canUserPerformAction db u a w tr = (inr d1, tr1))
    (H2 : canUserPerformAction db u a w tr1 = (inr d2, tr2))
    (Hwin : window_start a (tza w) (clock w (reads tr))
            = window_start a (tza w) (clock w (S (reads tr)))
            \/ Day (LocalTime (tza w) (clock w (reads tr)))
               = Day (LocalTime (tza w) (clock w (S (reads tr))))) :
  d1 = d2.
Proof.
  assert (Hw : window_start a (tza w) (clock w (reads tr))
               = window_start a (tza w) (clock w (S (reads tr)))).
  { destruct Hwin as [H | H]; [exact H |].
    destruct (same_day_same_starts _ _ _ H) as [Hm Hd].
    unfold window_start. rewrite Hm, Hd. reflexivity. }
  clear Hwin.
  destruct (gated_or_not a) as [[g ->] | (N1 & N2 & N3)].
  - rewrite canUserPerformAction_gated in H1, H2.
    apply counter_returns in H1. destruct H1 as (-> & _ & ->).
    apply counter_returns in H2. destruct H2 as (-> & _ & _).
    f_equal. cbn [reads]. rewrite reads_counter_events. cbn [reads].
    destruct g; [reflexivity | |]; apply window_count_start, Hw.
  - rewrite canUserPerformAction_free,
      (performActionOnPlan_other "free" db u a N1 N2 N3) in H1, H2.
    inversion H1. inversion H2. congruence.
Qed.

(** C8: a user with one writing today is denied in the last millisecond
    of the day and allowed in the next one, with the store unchanged. *)
Lemma C8_counterexample :
  exists d1 tr1 d2 tr2,
    canUserPerformAction Sample.store "ana" "ai_writing" Sample.midnight []
    = (inr d1, tr1)
    /\ canUserPerformAction Sample.store "ana" "ai_writing" Sample.midnight tr1
       = (inr d2, tr2)
    /\ allowed d1 = false
    /\ allowed d2 = true
    /\ d1 <> d2.
Proof.
  exists (decision_at AiWriting 1).
  exists (snd (canUserPerformAction Sample.store "ana" "ai_writing"
                 Sample.midnight [])).
  exists (decision_at AiWriting 0).
  eexists.
  split; [apply run_pair; vm_compute; reflexivity |].
  split; [apply run_pair; vm_compute; reflexivity |].
  split; [reflexivity | split; [reflexivity | discriminate]].
Qed.

Lemma C8_witness :
  let first :=
    canUserPerformAction Sample.store "ana" "take_quiz" Sample.midnight [] in
  let second :=
    canUserPerformAction Sample.store "ana" "take_quiz" Sample.midnight
                         (snd first) in
  first = (inr (decision_at TakeQuiz 5), snd first)
  /\ second = (inr (decision_at TakeQuiz 5), snd second)
  /\ window_start "take_quiz" Sample.zone Sample.day_end
     = window_start "take_quiz" Sample.zone Sample.next_day
  /\ decision_at TakeQuiz 5 = decision_at TakeQuiz 5.
Proof.
  intros first second.
  assert (H1 : first = (inr (decision_at TakeQuiz 5), snd first))
    by (apply run_pair; vm_compute; reflexivity).
  assert (H2 : second = (inr (decision_at TakeQuiz 5), snd second))
    by (apply run_pair; vm_compute; reflexivity).
  assert (H3 : window_start "take_quiz" Sample.zone Sample.day_end
               = window_start "take_quiz" Sample.zone Sample.next_day)
    by (vm_compute; reflexivity).
  split; [exact H1 | split; [exact H2 | split; [exact H3 |]]].
  exact (C8_same_window_same_decision Sample.store "ana" "take_quiz"
           Sample.midnight [] _ _ _ _ H1 H2 (or_introl H3)).
Defined.

(** C9, as the code has it.  For each counter, while [current] is below
    the limit the Decision allows and carries [remaining = limit -
    current]: [remaining] goes down by exactly one for each record more,
    from the limit down to 1, and is never 0 or negative.  When one more
    record brings [current] to the limit, the counter denies and the
    Decision carries no [remaining] at all. *)
Theorem C9_remaining_steps_down_to_one
    g db u w tr d tr1 db' u' w' tr' d' tr1' c
    (Hrun : counter g db u w tr = (inr d, tr1))
    (Hrun' : counter g db' u' w' tr' = (inr d', tr1'))
    (Hc : current d = Some c)
    (Hc' : current d' = Some (c + 1))
    (Hlt : c < static_limit g) :
  allowed d = true
  /\ remaining d = Some (static_limit g - c)
  /\ 1 <= static_limit g - c <= static_limit g
  /\ (c + 1 < static_limit g ->
      allowed d' = true /\ remaining d' = Some (static_limit g - c - 1))
  /\ (c + 1 = static_limit g ->
      remaining d = Some 1 /\ allowed d' = false /\ remaining d' = None)
  /\ remaining d <> Some 0
  /\ remaining d' <> Some 0.
Proof.
  apply counter_returns in Hrun. destruct Hrun as (-> & _ & _).
  apply counter_returns in Hrun'. destruct Hrun' as (-> & _ & _).
  pose proof (window_count_nonneg g db u (tza w) (clock w (reads tr))) as H0.
  set (n := window_count g db u (tza w) (clock w (reads tr))) in *.
  set (n' := window_count g db' u' (tza w') (clock w' (reads tr'))) in *.
  destruct (decision_at_fields g n) as (Hn & _ & _ & Ha & Hr & _).
  destruct (decision_at_fields g n') as (Hn' & _ & Hd' & Ha' & Hr' & _).
  rewrite Hn in Hc. injection Hc as Hc. rewrite Hn' in Hc'. injection Hc' as Hc'.
  assert (Hall : allowed (decision_at g n) = true) by (apply Ha; lia).
  assert (Hrem : remaining (decision_at g n) = Some (static_limit g - c))
    by (rewrite (Hr Hall); f_equal; lia).
  assert (Hnone : allowed (decision_at g n') = false ->
                  remaining (decision_at g n') = None).
  { unfold decision_at. destruct (n' >=? static_limit g); [reflexivity |].
    discriminate. }
  split; [exact Hall |].
  split; [exact Hrem |].
  split; [lia |].
  split.
  { intros H. assert (Hall' : allowed (decision_at g n') = true) by (apply Ha'; lia).
    split; [exact Hall' | rewrite (Hr' Hall'); f_equal; lia]. }
  split.
  { intros H. assert (Hden : allowed (decision_at g n') = false) by (apply Hd'; lia).
    split; [rewrite Hrem; f_equal; lia | split; [exact Hden | exact (Hnone Hden)]]. }
  split.
  { rewrite Hrem. intros H. injection H as H. lia. }
  destruct (Z.lt_ge_cases n' (static_limit g)) as [Hlt' | Hge'].
  - assert (Hall' : allowed (decision_at g n') = true) by (apply Ha'; lia).
    rewrite (Hr' Hall'). intros H. injection H as H. lia.
  - assert (Hden : allowed (decision_at g n') = false) by (apply Hd'; lia).
    rewrite (Hnone Hden). discriminate.
Qed.

(** C9: a user with two materials has [remaining = 1]; with one material
    more the Decision is a denial that has no [remaining], not one with
    [remaining = 0]. *)
Lemma C9_counterexample :
  let w := Sample.still Sample.morning in
  let more :=
    Writes.add_record "study_materials" (Sample.material "ben") Sample.store in
  exists d tr1 d' tr1',
    checkMaterialLimit Sample.store "ben" w [] = (inr d, tr1)
    /\ checkMaterialLimit more "ben" w [] = (inr d', tr1')
    /\ current d = Some 2
    /\ remaining d = Some 1
    /\ current d' = Some 3
    /\ allowed d' = false
    /\ remaining d' = None
    /\ remaining d' <> Some 0.
Proof.
  intros w more.
  exists (decision_at UploadMaterial 2).
  exists (snd (checkMaterialLimit Sample.store "ben" w [])).
  exists (decision_at UploadMaterial 3).
  exists (snd (checkMaterialLimit more "ben" w [])).
  split; [apply run_pair; vm_compute; reflexivity |].
  split; [apply run_pair; vm_compute; reflexivity |].
  repeat split; try reflexivity. discriminate.
Qed.

Lemma C9_witness :
  allowed (decision_at TakeQuiz 3) = true
  /\ remaining (decision_at TakeQuiz 3) = Some (static_limit TakeQuiz - 3)
  /\ 1 <= static_limit TakeQuiz - 3 <= static_limit TakeQuiz
  /\ (3 + 1 < static_limit TakeQuiz ->
      allowed (decision_at TakeQuiz 4) = true
      /\ remaining (decision_at TakeQuiz 4) = Some (static_limit TakeQuiz - 3 - 1))
  /\ (3 + 1 = static_limit TakeQuiz ->
      remaining (decision_at TakeQuiz 3) = Some 1
      /\ allowed (decision_at TakeQuiz 4) = false
      /\ remaining (decision_at TakeQuiz 4) = None)
  /\ remaining (decision_at TakeQuiz 3) <> Some 0
  /\ remaining (decision_at TakeQuiz 4) <> Some 0.
Proof.
  pose (three :=
          Writes.add_record "quiz_results"
            (Sample.record "ben" "completedAt" Sample.today)
            (Writes.add_record "quiz_results"
               (Sample.record "ben" "completedAt" (Sample.today + 1))
               Sample.store)).
  pose (four :=
          Writes.add_record "quiz_results"
            (Sample.record "ben" "completedAt" (Sample.today + 2)) three).
  apply (C9_remaining_steps_down_to_one TakeQuiz
           three "ben" (Sample.still Sample.morning) []
           (decision_at TakeQuiz 3)
           (snd (counter TakeQuiz three "ben" (Sample.still Sample.morning) []))
           four "ben" (Sample.still Sample.morning) []
           (decision_at TakeQuiz 4)
           (snd (counter TakeQuiz four "ben" (Sample.still Sample.morning) []))).
  - apply run_pair. vm_compute. reflexivity.
  - apply run_pair. vm_compute. reflexivity.
  - reflexivity.
  - reflexivity.
  - vm_compute. reflexivity.
Defined.

(** C10. The plan test compares the plan with the string [free] exactly,
    letter case included: any other plan, the display names [Free],
    [Starter] and [Pro] of [PLAN_NAMES] among them, is answered
    [{allowed: true}] with no query.  As shipped, [getUserPlan] returns
    [free] for every user, so the paid-plan branch is never taken and
    every gated action reaches its free-plan counter. *)
Theorem C10_plan_test_and_shipped_resolver db u w tr :
  (forall plan a,
      plan <> "free" ->
      performActionOnPlan plan db u a w tr = (inr allow_only, tr))
  /\ (forall a,
      performActionOnPlan (free PLAN_NAMES) db u a w tr = (inr allow_only, tr)
      /\ performActionOnPlan (starter PLAN_NAMES) db u a w tr = (inr allow_only, tr)
      /\ performActionOnPlan (pro PLAN_NAMES) db u a w tr = (inr allow_only, tr))
  /\ getUserPlan u w tr = (inr "free", EvPlan u :: tr)
  /\ (forall a,
      canUserPerformAction db u a w tr
      = performActionOnPlan "free" db u a w (EvPlan u :: tr))
  /\ (forall g,
      canUserPerformAction db u (action_name g) w tr
      = counter g db u w (EvPlan u :: tr))
  /\ (forall g tr',
      canUserPerformAction db u (action_name g) w tr <> (inr allow_only, tr')).
Proof.
  assert (Hpaid : forall plan a,
             plan <> "free" ->
             performActionOnPlan plan db u a w tr = (inr allow_only, tr)).
  { intros plan a Hp. rewrite (performActionOnPlan_paid _ _ _ _ Hp). reflexivity. }
  split; [exact Hpaid |].
  split.
  { intros a. repeat split; apply Hpaid; discriminate. }
  split; [reflexivity |].
  split; [intros a; apply canUserPerformAction_free |].
  split; [intros g; apply canUserPerformAction_gated |].
  intros g tr' H. rewrite canUserPerformAction_gated in H.
  apply counter_returns in H. destruct H as (H & _ & _).
  pose proof (f_equal current H) as Hc.
  destruct (decision_at_fields g
              (window_count g db u (tza w) (clock w (reads (EvPlan u :: tr)))))
    as (Hcur & _).
  rewrite Hcur in Hc. discriminate Hc.
Qed.

Lemma C10_witness :
  performActionOnPlan "Free" Sample.store "ana" "upload_material"
                      (Sample.still Sample.morning) []
  = (inr allow_only, []).
Proof.
  destruct (C10_plan_test_and_shipped_resolver Sample.store "ana"
              (Sample.still Sample.morning) []) as (H & _).
  apply H. discriminate.
Defined.

(** * Facts about writes to the store *)
Module WritesFacts.
Import JSDate Firestore Async Limits Quota Writes.
Import JSDateFacts WindowFacts CounterFacts EvaluatorFacts.

Lemma docs_of_add_record path r db path' :
  docs_of (collection (add_record path r db) path')
  = if String.eqb path path' then docs_of (collection db path') ++ [r]
    else docs_of (collection db path').
Proof.
  unfold docs_of, add_record, collection; cbn [ref_db ref_path collections].
  destruct (String.eqb_spec path path') as [-> | Hne].
  - rewrite lookup_insert_eq. reflexivity.
  - rewrite lookup_insert_ne by exact Hne. reflexivity.
Qed.

Lemma filter_andb {A} (f g : A -> bool) l :
  List.filter (fun x => f x && g x) l = List.filter g (List.filter f l).
Proof.
  induction l as [| x l IH]; [reflexivity |]. cbn [List.filter].
  destruct (f x); cbn [andb List.filter]; [destruct (g x) |]; rewrite IH; reflexivity.
Qed.

Lemma in_window_split g u z now d :
  in_window g u z now d = owned u d && after_owner g z now d.
Proof. destruct g; cbn [in_window after_owner]; rewrite ?andb_true_r; reflexivity. Qed.

Lemma window_count_owned g db u z now :
  window_count g db u z now
  = Z.of_nat (length (List.filter (after_owner g z now)
                        (List.filter (owned u)
                           (docs_of (collection db (collection_of g)))))).
Proof.
  unfold window_count. rewrite <- filter_andb. do 2 f_equal.
  apply List.filter_ext. intros d. apply in_window_split.
Qed.

Lemma window_count_add_record g db u z now path r :
  window_count g (add_record path r db) u z now
  = window_count g db u z now
    + (if String.eqb path (collection_of g) && in_window g u z now r
       then 1 else 0).
Proof.
  unfold window_count. rewrite docs_of_add_record.
  destruct (String.eqb path (collection_of g)); cbn [andb]; [| lia].
  rewrite List.filter_app, length_app. cbn [List.filter].
  destruct (in_window g u z now r); cbn [length]; lia.
Qed.

Lemma in_window_stamped g u z now r at_ :
  r !! "userId" = Some (VString u) ->
  (forall f, stamp_field g = Some f ->
             r !! f = Some (VTimestamp (Timestamp_fromDate at_))) ->
  in_window g u z now r = in_window_at g z now at_.
Proof.
  intros Hu Hs.
  assert (Ho : owned u r = true).
  { unfold owned. rewrite Hu. apply String.eqb_refl. }
  unfold in_window_at, window_start.
  destruct g; cbn [in_window action_name String.eqb Ascii.eqb Bool.eqb];
    rewrite Ho; [reflexivity | |]; cbn [andb];
    unfold stamped_since; rewrite (Hs _ eq_refl);
    apply Timestamp_geb_fromMillis.
Qed.

End WritesFacts.

(** * How the counts move with the window starts *)
Module WindowOrder.
Import JSDate Firestore Async Limits Quota Writes.
Import JSDateFacts ZoneFacts WindowFacts CounterFacts EvaluatorFacts WritesFacts.

(** A timestamp not before a later instant is not before an earlier one. *)
Lemma Timestamp_geb_earlier ts a b :
  a <= b ->
  Timestamp_geb ts (Timestamp_fromMillis b) = true ->
  Timestamp_geb ts (Timestamp_fromMillis a) = true.
Proof.
  intros Hab. unfold Timestamp_geb, Timestamp_fromMillis; cbn [seconds nanoseconds].
  destruct ts as [s n]; cbn [seconds nanoseconds].
  rewrite !Z.geb_leb.
  destruct (Z.eqb_spec s (b / 1000)); destruct (Z.eqb_spec s (a / 1000));
    rewrite ?Z.leb_le; intros H; Z.div_mod_to_equations; lia.
Qed.

Lemma stamped_since_earlier field a b r :
  a <= b ->
  stamped_since field (Timestamp_fromDate b) r = true ->
  stamped_since field (Timestamp_fromDate a) r = true.
Proof.
  intros Hab. unfold stamped_since.
  destruct (r !! field) as [[s | n | t] |]; try discriminate.
  apply Timestamp_geb_earlier, Hab.
Qed.

Lemma filter_length_le {A} (f g : A -> bool) l :
  (forall x, f x = true -> g x = true) ->
  (length (List.filter f l) <= length (List.filter g l))%nat.
Proof.
  intros Hfg. induction l as [| x l IH]; [apply Nat.le_refl |]. cbn [List.filter].
  destruct (f x) eqn:Hf.
  - rewrite (Hfg x Hf). cbn [length]. apply le_n_S, IH.
  - destruct (g x); cbn [length]; [apply Nat.le_trans with (1 := IH), Nat.le_succ_diag_r | exact IH].
Qed.

(** With the store unchanged, a window that starts no earlier holds no
    more records. *)
Lemma window_count_later_start g db u z1 n1 z2 n2 :
  (forall s1 s2,
      window_start (action_name g) z1 n1 = Some s1 ->
      window_start (action_name g) z2 n2 = Some s2 -> s1 <= s2) ->
  window_count g db u z2 n2 <= window_count g db u z1 n1.
Proof.
  intros Hs. unfold window_count. apply inj_le, filter_length_le.
  intros r. unfold window_start in Hs.
  destruct g; cbn [action_name String.eqb Ascii.eqb Bool.eqb] in Hs;
    cbn [in_window]; [trivial | |];
    rewrite !andb_true_iff; intros [Ho Hr]; (split; [exact Ho |]);
    revert Hr; apply stamped_since_earlier; apply Hs; reflexivity.
Qed.

(** How far back the instant lies at which the clock first shows a
    local time. *)
Lemma reach_of z now tl s len :
  first_shows z tl s ->
  tl <= LocalTime z now -> LocalTime z now - tl < len ->
  s <= now
  /\ now - s < len + (LocalTZA z s true - LocalTZA z now true).
Proof.
  intros Hf Hle Hlen. split; [apply (first_shows_le z tl s now Hf Hle) |].
  destruct Hf as [Hs _]. unfold LocalTime in Hs, Hlen.
  generalize dependent (LocalTZA z s true).
  generalize dependent (LocalTZA z now true).
  intros. lia.
Qed.

Lemma local_midnight_reach z now :
  LocalTime z now - local_midnight z now < msPerDay.
Proof.
  unfold local_midnight.
  pose proof (MakeDate_Day (LocalTime z now)) as Hn.
  pose proof (TimeWithinDay_range (LocalTime z now)) as Hr.
  unfold MakeDate in *.
  generalize dependent (TimeWithinDay (LocalTime z now)).
  generalize dependent (Day (LocalTime z now)).
  generalize dependent (LocalTime z now).
  intros. lia.
Qed.

Lemma local_month_midnight_reach z now :
  LocalTime z now - local_month_midnight z now < 31 * msPerDay.
Proof.
  unfold local_month_midnight, getDate.
  pose proof (MakeDate_Day (LocalTime z now)) as Hn.
  pose proof (TimeWithinDay_range (LocalTime z now)) as Hr.
  pose proof (DateFromTime_range (LocalTime z now)) as Hd.
  unfold MakeDate in *.
  generalize dependent (TimeWithinDay (LocalTime z now)).
  generalize dependent (DateFromTime (LocalTime z now)).
  generalize dependent (Day (LocalTime z now)).
  generalize dependent (LocalTime z now).
  unfold msPerDay. intros. lia.
Qed.

End WindowOrder.

(** * Further facts about the counters and the dashboard *)
Module MoreFacts.
Import JSDate Firestore Async Limits Quota Writes.
Import JSDateFacts WindowFacts CounterFacts EvaluatorFacts WritesFacts WindowOrder.

Lemma window_count_none g db u z now :
  (forall r, In r (docs_of (collection db (collection_of g))) ->
             in_window g u z now r = false) ->
  window_count g db u z now = 0.
Proof.
  intros H. unfold window_count.
  induction (docs_of (collection db (collection_of g))) as [| r l IH];
    [reflexivity |].
  cbn [List.filter]. rewrite (H r (or_introl eq_refl)).
  apply IH. intros r' Hr'. apply H. right. exact Hr'.
Qed.

(** What [getUserUsageStats] returns, when it returns. *)
Lemma getUserUsageStats_returns db u w tr s tr' :
  getUserUsageStats db u w tr = (inr s, tr') ->
  forall g,
    usage_for g s
    = usage_of (decision_at g
                  (window_count g db u (tza w)
                     (clock w (match g with
                               | AiWriting => S (reads tr)
                               | _ => reads tr
                               end)))).
Proof.
  rewrite getUserUsageStats_run. cbv zeta.
  destruct (fault w (queries tr) _); [discriminate |].
  destruct (fault w (S (queries tr)) _); [discriminate |].
  destruct (fault w (S (S (queries tr))) _); [discriminate |].
  intros H. injection H as <- _. intros g. destruct g; reflexivity.
Qed.

Lemma not_gated a :
  a <> "upload_material" -> a <> "take_quiz" -> a <> "ai_writing" ->
  forall g, a <> action_name g.
Proof. intros H1 H2 H3 g. destruct g; assumption. Qed.

Lemma owned_inv u r : owned u r = true -> r !! "userId" = Some (VString u).
Proof.
  unfold owned. destruct (r !! "userId") as [[s | n | t] |]; try discriminate.
  intros H. apply String.eqb_eq in H. subst s. reflexivity.
Qed.

Lemma stamped_since_inv field start r :
  stamped_since field start r = true -> exists ts, r !! field = Some (VTimestamp ts).
Proof.
  unfold stamped_since. destruct (r !! field) as [[s | n | t] |]; try discriminate.
  eauto.
Qed.

End MoreFacts.

(** * Further properties *)
Import Writes ZoneFacts WritesFacts WindowOrder MoreFacts.

(** X1. The Decision for a user depends on the store only through that
    user's own records in the collection of the action: two stores that
    hold the same records of the user there give the same Decision,
    whatever else they hold. *)
Theorem X1_only_own_records_count g db db' u w tr d tr1 d' tr1'
    (Hsame : List.filter (owned u) (docs_of (collection db (collection_of g)))
             = List.filter (owned u) (docs_of (collection db' (collection_of g))))
    (H1 : canUserPerformAction db u (action_name g) w tr = (inr d, tr1))
    (H2 : canUserPerformAction db' u (action_name g) w tr = (inr d', tr1')) :
  d = d'.
Proof.
  rewrite canUserPerformAction_gated in H1, H2.
  apply counter_returns in H1. destruct H1 as (-> & _ & _).
  apply counter_returns in H2. destruct H2 as (-> & _ & _).
  f_equal. rewrite !window_count_owned, Hsame. reflexivity.
Qed.

Lemma X1_witness :
  let db' :=
    add_record "study_materials" (Sample.material "ana")
      (add_record "quiz_results"
         (Sample.record "ben" "completedAt" Sample.today) Sample.store) in
  let first :=
    canUserPerformAction Sample.store "ben" "upload_material"
                         (Sample.still Sample.morning) [] in
  let second :=
    canUserPerformAction db' "ben" "upload_material"
                         (Sample.still Sample.morning) [] in
  List.filter (owned "ben") (docs_of (collection Sample.store "study_materials"))
  = List.filter (owned "ben") (docs_of (collection db' "study_materials"))
  /\ first = (inr (decision_at UploadMaterial 2), snd first)
  /\ second = (inr (decision_at UploadMaterial 2), snd second)
  /\ decision_at UploadMaterial 2 = decision_at UploadMaterial 2.
Proof.
  intros db' first second.
  assert (H0 : List.filter (owned "ben")
                 (docs_of (collection Sample.store "study_materials"))
               = List.filter (owned "ben")
                   (docs_of (collection db' "study_materials")))
    by (vm_compute; reflexivity).
  assert (H1 : first = (inr (decision_at UploadMaterial 2), snd first))
    by (apply run_pair; vm_compute; reflexivity).
  assert (H2 : second = (inr (decision_at UploadMaterial 2), snd second))
    by (apply run_pair; vm_compute; reflexivity).
  split; [exact H0 | split; [exact H1 | split; [exact H2 |]]].
  exact (X1_only_own_records_count UploadMaterial Sample.store db' "ben"
           (Sample.still Sample.morning) [] _ _ _ _ H0 H1 H2).
Defined.

(** X2. A new record of the user in the collection of the action raises
    [current] by exactly one when its time is at or after the window
    start and leaves it unchanged when its time is before; a material,
    which has no time window, always counts. *)
Theorem X2_new_record_counts_iff_in_window g db u w tr r at_ d tr1 d' tr1'
    (Hu : r !! "userId" = Some (VString u))
    (Hs : forall f, stamp_field g = Some f ->
                    r !! f = Some (VTimestamp (Timestamp_fromDate at_)))
    (H1 : canUserPerformAction db u (action_name g) w tr = (inr d, tr1))
    (H2 : canUserPerformAction (add_record (collection_of g) r db) u
                               (action_name g) w tr = (inr d', tr1')) :
  exists n,
    current d = Some n
    /\ current d'
       = Some (n + (if in_window_at g (tza w) (clock w (reads tr)) at_
                    then 1 else 0)).
Proof.
  rewrite canUserPerformAction_gated in H1, H2.
  apply counter_returns in H1. destruct H1 as (-> & _ & _).
  apply counter_returns in H2. destruct H2 as (-> & _ & _).
  cbn [reads].
  set (z := tza w). set (now := clock w (reads tr)).
  exists (window_count g db u z now).
  split; [apply decision_at_fields |].
  destruct (decision_at_fields g
              (window_count g (add_record (collection_of g) r db) u z now))
    as (Hc & _).
  rewrite Hc, window_count_add_record, String.eqb_refl. cbn [andb].
  rewrite (in_window_stamped g u z now r at_ Hu Hs). reflexivity.
Qed.

Lemma X2_witness :
  let r := Sample.record "ben" "completedAt" Sample.november in
  let first :=
    canUserPerformAction Sample.store "ben" "take_quiz"
                         (Sample.still Sample.morning) [] in
  let second :=
    canUserPerformAction (add_record "quiz_results" r Sample.store) "ben"
                         "take_quiz" (Sample.still Sample.morning) [] in
  first = (inr (decision_at TakeQuiz 1), snd first)
  /\ second = (inr (decision_at TakeQuiz 2), snd second)
  /\ in_window_at TakeQuiz Sample.zone Sample.morning Sample.november = true
  /\ exists n,
       current (decision_at TakeQuiz 1) = Some n
       /\ current (decision_at TakeQuiz 2)
          = Some (n + (if in_window_at TakeQuiz Sample.zone Sample.morning
                            Sample.november
                       then 1 else 0)).
Proof.
  intros r first second.
  assert (H1 : first = (inr (decision_at TakeQuiz 1), snd first))
    by (apply run_pair; vm_compute; reflexivity).
  assert (H2 : second = (inr (decision_at TakeQuiz 2), snd second))
    by (apply run_pair; vm_compute; reflexivity).
  split; [exact H1 | split; [exact H2 | split; [vm_compute; reflexivity |]]].
  assert (Hu : r !! "userId" = Some (VString "ben"))
    by (vm_compute; reflexivity).
  assert (Hs : forall f, stamp_field TakeQuiz = Some f ->
                         r !! f = Some (VTimestamp (Timestamp_fromDate Sample.november))).
  { intros f Hf. injection Hf as <-. vm_compute. reflexivity. }
  exact (X2_new_record_counts_iff_in_window TakeQuiz Sample.store "ben"
           (Sample.still Sample.morning) [] r Sample.november _ _ _ _
           Hu Hs H1 H2).
Defined.

(** X3. Adding a record, of any user, to any collection, never lowers
    [current] and never turns a denial into an allowance. *)
Theorem X3_new_record_never_reenables g db u w tr path r d tr1 d' tr1'
    (H1 : canUserPerformAction db u (action_name g) w tr = (inr d, tr1))
    (H2 : canUserPerformAction (add_record path r db) u (action_name g) w tr
          = (inr d', tr1')) :
  (exists n n', current d = Some n /\ current d' = Some n' /\ n <= n' <= n + 1)
  /\ (allowed d = false -> allowed d' = false).
Proof.
  rewrite canUserPerformAction_gated in H1, H2.
  apply counter_returns in H1. destruct H1 as (-> & _ & _).
  apply counter_returns in H2. destruct H2 as (-> & _ & _).
  cbn [reads].
  set (z := tza w). set (now := clock w (reads tr)).
  set (n := window_count g db u z now).
  set (n' := window_count g (add_record path r db) u z now).
  assert (Hn : n <= n' <= n + 1).
  { unfold n'. rewrite window_count_add_record. fold n.
    destruct (_ && _); lia. }
  destruct (decision_at_fields g n) as (Hc & _ & Hd & _).
  destruct (decision_at_fields g n') as (Hc' & _ & Hd' & _).
  split.
  - exists n, n'. auto.
  - intros H. apply Hd'. apply Hd in H. lia.
Qed.

Lemma X3_witness :
  let r := Sample.material "ana" in
  let first :=
    canUserPerformAction Sample.store "ana" "upload_material"
                         (Sample.still Sample.morning) [] in
  let second :=
    canUserPerformAction (add_record "study_materials" r Sample.store) "ana"
                         "upload_material" (Sample.still Sample.morning) [] in
  first = (inr (decision_at UploadMaterial 3), snd first)
  /\ second = (inr (decision_at UploadMaterial 4), snd second)
  /\ (allowed (decision_at UploadMaterial 3) = false ->
      allowed (decision_at UploadMaterial 4) = false).
Proof.
  intros r first second.
  assert (H1 : first = (inr (decision_at UploadMaterial 3), snd first))
    by (apply run_pair; vm_compute; reflexivity).
  assert (H2 : second = (inr (decision_at UploadMaterial 4), snd second))
    by (apply run_pair; vm_compute; reflexivity).
  split; [exact H1 | split; [exact H2 |]].
  exact (proj2 (X3_new_record_never_reenables UploadMaterial Sample.store "ana"
                  (Sample.still Sample.morning) [] "study_materials" r
                  _ _ _ _ H1 H2)).
Defined.

(** X4. The quota is whole again once the window has moved past the
    user's records: if each record of the user in the collection of the
    action carries a time before the window start, the action is allowed
    with [current = 0] and [remaining] equal to the limit. *)
Theorem X4_records_before_window_do_not_count g db u w tr d tr1
    (Hold : forall r,
        In r (docs_of (collection db (collection_of g))) ->
        owned u r = true ->
        exists at_,
          (forall f, stamp_field g = Some f ->
                     r !! f = Some (VTimestamp (Timestamp_fromDate at_)))
          /\ in_window_at g (tza w) (clock w (reads tr)) at_ = false)
    (H1 : canUserPerformAction db u (action_name g) w tr = (inr d, tr1)) :
  d = {| allowed := true; reason := None; current := Some 0;
         limit := Some (static_limit g); upgradeMessage := None;
         remaining := Some (static_limit g) |}.
Proof.
  rewrite canUserPerformAction_gated in H1.
  apply counter_returns in H1. destruct H1 as (-> & _ & _). cbn [reads].
  rewrite window_count_none; [destruct g; reflexivity |].
  intros r Hin. rewrite in_window_split.
  destruct (owned u r) eqn:Ho; [| reflexivity]. cbn [andb].
  destruct (Hold r Hin Ho) as (at_ & Hs & Hout).
  assert (Hu : r !! "userId" = Some (VString u)).
  { unfold owned in Ho. destruct (r !! "userId") as [[s | n | t] |];
      try discriminate. apply String.eqb_eq in Ho. subst s. reflexivity. }
  rewrite <- (in_window_stamped g u _ _ r at_ Hu Hs), in_window_split, Ho in Hout.
  exact Hout.
Qed.

Lemma X4_witness :
  let r0 := Sample.record "ana" "completedAt" (Sample.november - 1) in
  let db := add_record "quiz_results" r0 Sample.empty_store in
  let run :=
    canUserPerformAction db "ana" "take_quiz" (Sample.still Sample.morning) [] in
  run = (inr (decision_at TakeQuiz 0), snd run)
  /\ in_window_at TakeQuiz Sample.zone Sample.morning (Sample.november - 1) = false
  /\ decision_at TakeQuiz 0
     = {| allowed := true; reason := None; current := Some 0;
          limit := Some 5; upgradeMessage := None; remaining := Some 5 |}.
Proof.
  intros r0 db run.
  assert (H1 : run = (inr (decision_at TakeQuiz 0), snd run))
    by (apply run_pair; vm_compute; reflexivity).
  assert (H2 : in_window_at TakeQuiz Sample.zone Sample.morning
                 (Sample.november - 1) = false)
    by (vm_compute; reflexivity).
  split; [exact H1 | split; [exact H2 |]].
  refine (X4_records_before_window_do_not_count TakeQuiz db "ana"
            (Sample.still Sample.morning) [] _ _ _ H1).
  intros r Hin _.
  change (docs_of (collection db (collection_of TakeQuiz))) with [r0] in Hin.
  destruct Hin as [<- | []].
  exists (Sample.november - 1). split; [| exact H2].
  intros f Hf. injection Hf as <-. vm_compute. reflexivity.
Defined.

(** X5. Every entry of the dashboard is complete and consistent: [used],
    [limit] and [remaining] are all present, [used] is not negative,
    [limit] is 3, 5 and 1, and [remaining] is [max (limit - used) 0], so
    it lies between 0 and the limit and is 0 exactly when the limit is
    reached. *)
Theorem X5_usage_stats_consistent db u w tr s tr' g
    (H : getUserUsageStats db u w tr = (inr s, tr')) :
  exists n r,
    Usage.used (usage_for g s) = Some n
    /\ Usage.limit (usage_for g s) = Some (static_limit g)
    /\ Usage.remaining (usage_for g s) = Some r
    /\ 0 <= n
    /\ r = Z.max (static_limit g - n) 0
    /\ 0 <= r <= static_limit g
    /\ (r = 0 <-> static_limit g <= n).
Proof.
  rewrite (getUserUsageStats_returns _ _ _ _ _ _ H g).
  set (n := window_count g db u (tza w) _).
  pose proof (window_count_nonneg g db u (tza w)
                (clock w (match g with AiWriting => S (reads tr) | _ => reads tr end)))
    as Hn. fold n in Hn.
  destruct (decision_at_fields g n) as (Hc & Hl & _ & _ & _ & Hs).
  exists n, (Z.max (static_limit g - n) 0).
  unfold usage_of; cbn [Usage.used Usage.limit Usage.remaining].
  split; [exact Hc | split; [exact Hl | split; [exact Hs |]]].
  assert (0 < static_limit g) by (destruct g; reflexivity).
  repeat split; lia.
Qed.

Lemma X5_witness :
  let run :=
    getUserUsageStats Sample.store "ben" (Sample.still Sample.morning) [] in
  fst run
  = inr {| materials := Usage.mk (Some 2) (Some 3) (Some 1);
           quizzes := Usage.mk (Some 1) (Some 5) (Some 4);
           writings := Usage.mk (Some 0) (Some 1) (Some 1) |}
  /\ exists n r,
      Some 1 = Some n /\ Some 5 = Some (static_limit TakeQuiz) /\ Some 4 = Some r
      /\ 0 <= n /\ r = Z.max (static_limit TakeQuiz - n) 0
      /\ 0 <= r <= static_limit TakeQuiz
      /\ (r = 0 <-> static_limit TakeQuiz <= n).
Proof.
  intros run.
  assert (H : fst run
              = inr {| materials := Usage.mk (Some 2) (Some 3) (Some 1);
                       quizzes := Usage.mk (Some 1) (Some 5) (Some 4);
                       writings := Usage.mk (Some 0) (Some 1) (Some 1) |})
    by (vm_compute; reflexivity).
  split; [exact H |].
  exact (X5_usage_stats_consistent Sample.store "ben"
           (Sample.still Sample.morning) [] _ _ TakeQuiz (run_pair run _ H)).
Defined.

(** X6. The dashboard and the evaluator agree.  When [getUserUsageStats]
    is followed by [canUserPerformAction] on the same store, and the
    clock readings of the two give the same window start for the action,
    the entry of the action shows the [current] and [limit] of the
    Decision, and the action is allowed exactly when the entry shows a
    positive [remaining]. *)
Theorem X6_dashboard_agrees_with_evaluation g db u w tr s tr_s d tr_d
    (Hs : getUserUsageStats db u w tr = (inr s, tr_s))
    (Hd : canUserPerformAction db u (action_name g) w tr_s = (inr d, tr_d))
    (Hwin : window_start (action_name g) (tza w)
              (clock w (match g with
                        | AiWriting => S (reads tr)
                        | _ => reads tr
                        end))
            = window_start (action_name g) (tza w)
                (clock w (S (S (reads tr))))) :
  Usage.used (usage_for g s) = current d
  /\ Usage.limit (usage_for g s) = limit d
  /\ (allowed d = true <->
      exists r, Usage.remaining (usage_for g s) = Some r /\ 0 < r).
Proof.
  rewrite (getUserUsageStats_returns _ _ _ _ _ _ Hs g).
  assert (Hreads : reads tr_s = S (S (reads tr))).
  { revert Hs. rewrite getUserUsageStats_run. cbv zeta.
    destruct (fault w (queries tr) _); [discriminate |].
    destruct (fault w (S (queries tr)) _); [discriminate |].
    destruct (fault w (S (S (queries tr))) _); [discriminate |].
    intros H. injection H as _ <-. reflexivity. }
  rewrite canUserPerformAction_gated in Hd.
  apply counter_returns in Hd. destruct Hd as (-> & _ & _).
  cbn [reads]. rewrite Hreads.
  rewrite <- (window_count_start g db u _ _ _ Hwin).
  set (n := window_count g db u (tza w) _).
  destruct (decision_at_fields g n) as (Hc & Hl & _ & Ha & _ & Hsh).
  unfold usage_of; cbn [Usage.used Usage.limit Usage.remaining].
  split; [reflexivity | split; [reflexivity |]].
  rewrite Hsh, Ha. split.
  - intros Hlt. eexists. split; [reflexivity | lia].
  - intros (r & Hr & Hpos). injection Hr as <-. lia.
Qed.

Lemma X6_witness :
  let stats :=
    getUserUsageStats Sample.store "ana" (Sample.still Sample.morning) [] in
  let run :=
    canUserPerformAction Sample.store "ana" "ai_writing"
                         (Sample.still Sample.morning) (snd stats) in
  fst stats
  = inr {| materials := Usage.mk (Some 3) (Some 3) (Some 0);
           quizzes := Usage.mk (Some 5) (Some 5) (Some 0);
           writings := Usage.mk (Some 1) (Some 1) (Some 0) |}
  /\ fst run = inr (decision_at AiWriting 1)
  /\ (allowed (decision_at AiWriting 1) = true <->
      exists r, Some 0 = Some r /\ 0 < r).
Proof.
  intros stats run.
  assert (H1 : fst stats
               = inr {| materials := Usage.mk (Some 3) (Some 3) (Some 0);
                        quizzes := Usage.mk (Some 5) (Some 5) (Some 0);
                        writings := Usage.mk (Some 1) (Some 1) (Some 0) |})
    by (vm_compute; reflexivity).
  assert (H2 : fst run = inr (decision_at AiWriting 1))
    by (vm_compute; reflexivity).
  split; [exact H1 | split; [exact H2 |]].
  exact (proj2 (proj2
           (X6_dashboard_agrees_with_evaluation AiWriting Sample.store "ana"
              (Sample.still Sample.morning) [] _ _ _ _
              (run_pair stats _ H1) (run_pair run _ H2) eq_refl))).
Defined.

(** X7. What one call costs.  [canUserPerformAction] calls the plan
    resolver once, reads the clock at most once and sends at most one
    query, and it sends one exactly for the three gated actions, whether
    the store answers or fails.  [getUserUsageStats] never calls the plan
    resolver, sends between one and three queries and reads the clock at
    most twice. *)
Theorem X7_calls_per_operation db u a w tr :
  let run := snd (canUserPerformAction db u a w tr) in
  let stats := snd (getUserUsageStats db u w tr) in
  lookups run = S (lookups tr)
  /\ (reads tr <= reads run <= S (reads tr))%nat
  /\ (queries run = S (queries tr) <-> exists g, a = action_name g)
  /\ (queries run = queries tr <-> forall g, a <> action_name g)
  /\ lookups stats = lookups tr
  /\ (S (queries tr) <= queries stats <= S (S (S (queries tr))))%nat
  /\ (reads tr <= reads stats <= S (S (reads tr)))%nat.
Proof.
  cbv zeta.
  assert (Hstats : lookups (snd (getUserUsageStats db u w tr)) = lookups tr
                   /\ (S (queries tr) <= queries (snd (getUserUsageStats db u w tr))
                       <= S (S (S (queries tr))))%nat
                   /\ (reads tr <= reads (snd (getUserUsageStats db u w tr))
                       <= S (S (reads tr)))%nat).
  { rewrite getUserUsageStats_run. cbv zeta.
    destruct (fault w (queries tr) _);
      [cbn [snd lookups queries reads]; lia |].
    destruct (fault w (S (queries tr)) _);
      [cbn [snd lookups queries reads]; lia |].
    destruct (fault w (S (S (queries tr))) _);
      cbn [snd lookups queries reads]; lia. }
  destruct (gated_or_not a) as [[g ->] | (N1 & N2 & N3)].
  - rewrite canUserPerformAction_gated, counter_run. cbv zeta. cbn [snd].
    rewrite lookups_counter_events, reads_counter_events, queries_counter_events.
    cbn [lookups reads queries].
    split; [reflexivity |].
    split; [destruct g; lia |].
    split; [split; [intros _; exists g; reflexivity | reflexivity] |].
    split; [| exact Hstats].
    split; [intros H; exfalso; lia | intros H; exfalso; exact (H g eq_refl)].
  - rewrite canUserPerformAction_free,
      (performActionOnPlan_other "free" db u a N1 N2 N3).
    cbn [ret snd lookups reads queries].
    split; [reflexivity |].
    split; [lia |].
    split.
    { split; [intros H; exfalso; lia |].
      intros [g ->]. exfalso. exact (not_gated _ N1 N2 N3 g eq_refl). }
    split; [| exact Hstats].
    split; [intros _; apply not_gated; assumption | reflexivity].
Qed.

(** X8. With the store unchanged, a window that starts no earlier holds
    no more records.  Of two evaluations of one gated action, if the
    window start of the second is not before the window start of the
    first, the second finds no more records than the first, so an action
    allowed in the first is allowed in the second.  For
    [upload_material], which has no window, this holds of any two
    evaluations. *)
Theorem X8_later_window_start_never_counts_more
    g db u w tr d tr1 w' tr' d' tr1'
    (Hstart : forall s s',
        window_start (action_name g) (tza w) (clock w (reads tr)) = Some s ->
        window_start (action_name g) (tza w') (clock w' (reads tr')) = Some s' ->
        s <= s')
    (H1 : canUserPerformAction db u (action_name g) w tr = (inr d, tr1))
    (H2 : canUserPerformAction db u (action_name g) w' tr' = (inr d', tr1')) :
  (exists n n', current d = Some n /\ current d' = Some n' /\ n' <= n)
  /\ (allowed d = true -> allowed d' = true).
Proof.
  rewrite canUserPerformAction_gated in H1, H2.
  apply counter_returns in H1. destruct H1 as (-> & _ & _).
  apply counter_returns in H2. destruct H2 as (-> & _ & _).
  cbn [reads].
  pose proof (window_count_later_start g db u _ _ _ _ Hstart) as Hle.
  set (n := window_count g db u (tza w) (clock w (reads tr))) in *.
  set (n' := window_count g db u (tza w') (clock w' (reads tr'))) in *.
  destruct (decision_at_fields g n) as (Hc & _ & _ & Ha & _).
  destruct (decision_at_fields g n') as (Hc' & _ & _ & Ha' & _).
  split.
  - exists n, n'. auto.
  - intros H. apply Ha'. apply Ha in H. lia.
Qed.

Lemma X8_witness :
  let first :=
    canUserPerformAction Sample.store "ana" "ai_writing" Sample.midnight [] in
  let second :=
    canUserPerformAction Sample.store "ana" "ai_writing" Sample.midnight
                         (snd first) in
  first = (inr (decision_at AiWriting 1), snd first)
  /\ second = (inr (decision_at AiWriting 0), snd second)
  /\ window_start "ai_writing" Sample.zone Sample.day_end
     = Some Sample.today
  /\ window_start "ai_writing" Sample.zone Sample.next_day
     = Some Sample.next_day
  /\ exists n n',
      current (decision_at AiWriting 1) = Some n
      /\ current (decision_at AiWriting 0) = Some n' /\ n' <= n.
Proof.
  intros first second.
  assert (H1 : first = (inr (decision_at AiWriting 1), snd first))
    by (apply run_pair; vm_compute; reflexivity).
  assert (H2 : second = (inr (decision_at AiWriting 0), snd second))
    by (apply run_pair; vm_compute; reflexivity).
  assert (H3 : window_start "ai_writing" Sample.zone Sample.day_end
               = Some Sample.today) by (vm_compute; reflexivity).
  assert (H4 : window_start "ai_writing" Sample.zone Sample.next_day
               = Some Sample.next_day) by (vm_compute; reflexivity).
  split; [exact H1 | split; [exact H2 | split; [exact H3 | split; [exact H4 |]]]].
  refine (proj1 (X8_later_window_start_never_counts_more AiWriting Sample.store
                   "ana" Sample.midnight [] _ _ Sample.midnight (snd first) _ _
                   _ H1 H2)).
  intros s s' Hs Hs'.
  change (window_start "ai_writing" Sample.zone Sample.day_end = Some s) in Hs.
  change (window_start "ai_writing" Sample.zone Sample.next_day = Some s') in Hs'.
  rewrite H3 in Hs. rewrite H4 in Hs'.
  injection Hs as <-. injection Hs' as <-. vm_compute. discriminate.
Defined.

(** X9. How far back a window reaches.  The start of the window of
    [take_quiz] is never after the clock reading and lies before it by
    less than 31 days plus the amount by which the offset of the zone has
    gone down since that start; the start of the window of [ai_writing]
    is never after the clock reading and lies before it by less than one
    day plus that amount.  So on the day on which the clock is set back
    by an hour the day window reaches back up to 25 hours, and on a day
    without a change less than 24.  (Zones whose changes are in order,
    the local midnight of the start not strictly inside a stretch that
    the clock skips, local year outside 0..99.) *)
Theorem X9_window_reach g z now start
    (Hy : ~ (0 <= getFullYear z now <= 99))
    (Ho : ordered z = true)
    (Hg : skipped_inside z (match g with
                            | TakeQuiz => local_month_midnight z now
                            | _ => local_midnight z now
                            end) = false)
    (Hs : window_start (action_name g) z now = Some start) :
  let days := match g with TakeQuiz => 31 | _ => 1 end in
  start <= now
  /\ now - start
     < days * msPerDay + (LocalTZA z start true - LocalTZA z now true)
  /\ (LocalTZA z start true = LocalTZA z now true ->
      now - start < days * msPerDay).
Proof.
  unfold window_start in Hs.
  destruct g; cbn [action_name String.eqb Ascii.eqb Bool.eqb] in Hs;
    [discriminate | |]; injection Hs as <-; cbv zeta.
  - rewrite (monthStartOf_eq z now Hy).
    destruct (reach_of z now _ _ (31 * msPerDay)
                (UTC_first_shows z _ Ho Hg)
                (local_month_midnight_le z now)
                (local_month_midnight_reach z now)) as [H1 H2].
    split; [exact H1 | split; [exact H2 |]].
    intros He. rewrite He in H2. lia.
  - rewrite (todayStartOf_eq z now Hy).
    destruct (reach_of z now _ _ (1 * msPerDay)
                (UTC_first_shows z _ Ho Hg)
                (local_midnight_le z now)
                (eq_ind_r (fun x => _ < x) (local_midnight_reach z now)
                          (Z.mul_1_l msPerDay))) as [H1 H2].
    split; [exact H1 | split; [exact H2 |]].
    intros He. rewrite He in H2. lia.
Qed.

Lemma X9_witness :
  window_start "ai_writing" Sample.zone Sample.long_day_end
  = Some Sample.long_day_start
  /\ Sample.long_day_end - Sample.long_day_start = 89999999
  /\ LocalTZA Sample.zone Sample.long_day_start true = 7200000
  /\ LocalTZA Sample.zone Sample.long_day_end true = 3600000
  /\ Sample.long_day_start <= Sample.long_day_end
  /\ Sample.long_day_end - Sample.long_day_start
     < 1 * msPerDay
       + (LocalTZA Sample.zone Sample.long_day_start true
          - LocalTZA Sample.zone Sample.long_day_end true).
Proof.
  assert (Hs : window_start (action_name AiWriting) Sample.zone
                 Sample.long_day_end = Some Sample.long_day_start)
    by (vm_compute; reflexivity).
  assert (Hy : ~ (0 <= getFullYear Sample.zone Sample.long_day_end <= 99))
    by (vm_compute; intros [_ H]; apply H; reflexivity).
  destruct (X9_window_reach AiWriting Sample.zone Sample.long_day_end
              Sample.long_day_start Hy eq_refl eq_refl Hs) as (H1 & H2 & _).
  split; [exact Hs |].
  split; [vm_compute; reflexivity |].
  split; [vm_compute; reflexivity |].
  split; [vm_compute; reflexivity |].
  split; [exact H1 | exact H2].
Defined.

(** X10. The shape of a Decision.  A denial comes only from a gated
    action and carries the sentence and the upgrade text of that action,
    [current] and [limit], and no [remaining].  An allowance carries no
    [reason] and no [upgradeMessage]; for a gated action it carries
    [current], [limit] and a positive [remaining], and for any other
    action it is the bare [{allowed: true}]. *)
Theorem X10_decision_shape db u a w tr d tr1
    (H : canUserPerformAction db u a w tr = (inr d, tr1)) :
  (allowed d = false ->
   exists g n,
     a = action_name g
     /\ reason d = Some (denial_reason g)
     /\ upgradeMessage d = Some (upgrade_text g)
     /\ current d = Some n
     /\ limit d = Some (static_limit g)
     /\ static_limit g <= n
     /\ remaining d = None)
  /\ (allowed d = true ->
      reason d = None
      /\ upgradeMessage d = None
      /\ ((exists g n,
              a = action_name g
              /\ current d = Some n
              /\ limit d = Some (static_limit g)
              /\ remaining d = Some (static_limit g - n)
              /\ 0 <= n < static_limit g)
          \/ ((forall g, a <> action_name g) /\ d = allow_only))).
Proof.
  destruct (gated_or_not a) as [[g ->] | (N1 & N2 & N3)].
  - rewrite canUserPerformAction_gated in H.
    apply counter_returns in H. destruct H as (-> & _ & _).
    set (n := window_count g db u (tza w) _).
    pose proof (window_count_nonneg g db u (tza w)
                  (clock w (reads (EvPlan u :: tr)))) as Hn. fold n in Hn.
    unfold decision_at. rewrite Z.geb_leb.
    destruct (Z.leb_spec (static_limit g) n);
      cbn [allowed reason upgradeMessage current limit remaining].
    + split; [| discriminate]. intros _. exists g, n. auto 10.
    + split; [discriminate |]. intros _.
      split; [reflexivity | split; [reflexivity |]].
      left. exists g, n. repeat split; try reflexivity; lia.
  - rewrite canUserPerformAction_free,
      (performActionOnPlan_other "free" db u a N1 N2 N3) in H.
    injection H as <- _.
    split; [discriminate |]. intros _.
    split; [reflexivity | split; [reflexivity |]].
    right. split; [apply not_gated; assumption | reflexivity].
Qed.

Lemma X10_witness :
  let run :=
    canUserPerformAction Sample.store "ana" "take_quiz"
                         (Sample.still Sample.morning) [] in
  run = (inr (decision_at TakeQuiz 5), snd run)
  /\ exists g n,
      "take_quiz" = action_name g
      /\ reason (decision_at TakeQuiz 5) = Some (denial_reason g)
      /\ upgradeMessage (decision_at TakeQuiz 5) = Some (upgrade_text g)
      /\ current (decision_at TakeQuiz 5) = Some n
      /\ limit (decision_at TakeQuiz 5) = Some (static_limit g)
      /\ static_limit g <= n
      /\ remaining (decision_at TakeQuiz 5) = None.
Proof.
  intros run.
  assert (H1 : run = (inr (decision_at TakeQuiz 5), snd run))
    by (apply run_pair; vm_compute; reflexivity).
  split; [exact H1 |].
  exact (proj1 (X10_decision_shape Sample.store "ana" "take_quiz"
                  (Sample.still Sample.morning) [] _ _ H1) eq_refl).
Defined.

(** X11. A malformed record is never counted.  A new record whose
    [userId] is missing or is not the string of the user, or, for the two
    counters with a time window, whose time field is missing or is not a
    timestamp (a number or a string, say), leaves the Decision as it
    was. *)
Theorem X11_malformed_record_not_counted g db u w tr r d tr1 d' tr1'
    (Hbad : r !! "userId" <> Some (VString u)
            \/ exists f, stamp_field g = Some f
                         /\ forall ts, r !! f <> Some (VTimestamp ts))
    (H1 : canUserPerformAction db u (action_name g) w tr = (inr d, tr1))
    (H2 : canUserPerformAction (add_record (collection_of g) r db) u
                               (action_name g) w tr = (inr d', tr1')) :
  d' = d.
Proof.
  rewrite canUserPerformAction_gated in H1, H2.
  apply counter_returns in H1. destruct H1 as (-> & _ & _).
  apply counter_returns in H2. destruct H2 as (-> & _ & _).
  f_equal. rewrite window_count_add_record, String.eqb_refl. cbn [andb].
  match goal with
  | |- context [in_window g u ?z ?now r] =>
      assert (Hout : in_window g u z now r = false)
  end.
  { rewrite in_window_split.
    destruct (owned u r) eqn:Ho; [| reflexivity]. cbn [andb].
    destruct Hbad as [Hu | (f & Hf & Hts)].
    - exfalso. apply Hu, owned_inv, Ho.
    - destruct (after_owner g _ _ r) eqn:Ha; [| reflexivity]. exfalso.
      destruct g; cbn [stamp_field] in Hf; [discriminate | |];
        injection Hf as <-; cbn [after_owner] in Ha;
        apply stamped_since_inv in Ha; destruct Ha as [ts Hts'];
        exact (Hts ts Hts'). }
  rewrite Hout. lia.
Qed.

Lemma X11_witness :
  let r : Doc :=
    <["userId" := VString "ben"]> (<["completedAt" := VNumber 1793700000000]> ∅) in
  let first :=
    canUserPerformAction Sample.store "ben" "take_quiz"
                         (Sample.still Sample.morning) [] in
  let second :=
    canUserPerformAction (add_record "quiz_results" r Sample.store) "ben"
                         "take_quiz" (Sample.still Sample.morning) [] in
  first = (inr (decision_at TakeQuiz 1), snd first)
  /\ second = (inr (decision_at TakeQuiz 1), snd second)
  /\ r !! "completedAt" = Some (VNumber 1793700000000)
  /\ decision_at TakeQuiz 1 = decision_at TakeQuiz 1.
Proof.
  intros r first second.
  assert (H1 : first = (inr (decision_at TakeQuiz 1), snd first))
    by (apply run_pair; vm_compute; reflexivity).
  assert (H2 : second = (inr (decision_at TakeQuiz 1), snd second))
    by (apply run_pair; vm_compute; reflexivity).
  assert (H3 : r !! "completedAt" = Some (VNumber 1793700000000))
    by (vm_compute; reflexivity).
  split; [exact H1 | split; [exact H2 | split; [exact H3 |]]].
  refine (X11_malformed_record_not_counted TakeQuiz Sample.store "ben"
            (Sample.still Sample.morning) [] r _ _ _ _ _ H1 H2).
  right. exists "completedAt". split; [reflexivity |].
  intros ts Hts. rewrite H3 in Hts. discriminate Hts.
Defined.
